(** * Symbol extraction ([parseJS]) and phased dynamic analysis
      ([RunDynamicAnalysis]) of package-analysis, embedded in Rocq.

    The Go code is embedded shallowly.  A Go function that can panic returns
    an [outcome]; a function that talks to the operating system, to the
    sandbox or to the logger threads the corresponding state explicitly.
    Packages of the repository (and of the Go library) whose code is not part
    of the two embedded files appear as type classes: every theorem holds for
    each of their instances. *)

From stdpp Require Import gmap strings list fin_maps.
From Stdlib Require Import ZArith Floats.PrimFloat.

Set Warnings "-register-all,-clear-no-such-hyp".
Set Default Proof Using "Type*".

Open Scope string_scope.
Open Scope Z_scope.

(** ** Go values *)

(** What an [any] (an [interface {}]) can hold in this program: the six
    shapes [encoding/json] decodes into, and the pointer to a [big.Int] that [parseJS]
    itself stores. *)
Inductive any : Type :=
| ANil
| ABool (b : bool)
| AFloat64 (f : float)
| AString (s : string)
| ASlice (l : list any)
| AMap (m : gmap string any)
| ABigInt (z : Z).

(** [fmt.Sprintf("%T", v)]. *)
Definition typeName (v : any) : string :=
  match v with
  | ANil => "<nil>"
  | ABool _ => "bool"
  | AFloat64 _ => "float64"
  | AString _ => "string"
  | ASlice _ => "[]interface {}"
  | AMap _ => "map[string]interface {}"
  | ABigInt _ => "*big.Int"
  end.

(** [m[k]] on a [map[string]any]: the zero value [nil] when [k] is absent
    (also on a nil map, which is modelled as the empty map). *)
Definition index (m : gmap string any) (k : string) : any :=
  default ANil (m !! k).

(** [v == true] for an interface value [v]: the dynamic type must be [bool]. *)
Definition eqTrue (v : any) : bool :=
  match v with
  | ABool b => b
  | _ => false
  end.

(** The Go [error] interface, by dynamic type. [None : option error] is the
    nil error. *)
Inductive error : Type :=
| ExitError (ExitCode : Z) (Stderr : string)
| Errorf (format : string) (wrapped : error)
| OtherError (msg : string).

(** The checked assertion of [err] to a pointer to [exec.ExitError]. *)
Definition asExitError (err : error) : option (Z * string) :=
  match err with
  | ExitError code stderr => Some (code, stderr)
  | _ => None
  end.

(** A run-time panic; the only one this code can raise is a failed type
    assertion [v.(string)]. *)
Inductive panic : Type :=
| InterfaceConversion (dynamicType : string) (wanted : string).

(** The result of calling a Go function that may panic. *)
Inductive outcome (A : Type) : Type :=
| Returned (a : A)
| Panicked (p : panic).
Arguments Returned {A} a.
Arguments Panicked {A} p.

#[global] Instance outcome_ret : MRet outcome := fun A a => @Returned A a.
#[global] Instance outcome_bind : MBind outcome := fun A B k m =>
  match m with
  | Returned a => k a
  | Panicked p => Panicked p
  end.

Definition returns {A} (o : outcome A) : Prop := ∃ a, o = Returned a.
Definition panics {A} (o : outcome A) : Prop := ∃ p, o = Panicked p.

(** The checked assertion [s, ok := v.(string)]. *)
Definition asString (v : any) : option string :=
  match v with
  | AString s => Some s
  | _ => None
  end.

(** The unchecked assertion [v.(string)]. *)
Definition assertString (v : any) : outcome string :=
  match v with
  | AString s => Returned s
  | ANil => Panicked (InterfaceConversion "nil" "string")
  | other => Panicked (InterfaceConversion (typeName other) "string")
  end.

(** ** Package [token] (internal/staticanalysis/token) *)

Module token.
(** The identifier classification and its table are declared outside the
    embedded files: [parseJS] only calls [CheckIdentifierType] and compares
    its result with [Other] and [Unknown]. *)
Class API : Type := {
  IdentifierType : Type;
  IdentifierType_eq_dec :: EqDecision IdentifierType;
  Other : IdentifierType;
  Unknown : IdentifierType;
  CheckIdentifierType : string → IdentifierType;
}.
End token.
#[global] Existing Instance token.IdentifierType_eq_dec.

(** ** Package [math/big] *)

Module big.
(** [SetString s base] is [new(big.Int).SetString(s, base)]: the integer
    read, or [None] when the second result is false. *)
Class API : Type := {
  SetString : string → Z → option Z;
}.
End big.

(** ** Package [os/exec] *)

Module exec.
Record Cmd : Type := { Path : string; Args : list string }.

Definition Command (name : string) (arg : list string) : Cmd :=
  {| Path := name; Args := arg |}.

(** The operating system as [runParser] uses it. [StdinPipe], [Write] and
    [Close] give the error of the call, if any; [Output] runs the command
    (on the text written to its standard input, if any) and gives its
    standard output and the error: an [ExitError] with the exit code and
    the captured standard error when the process exits unsuccessfully. *)
Class OS : Type := {
  StdinPipe : Cmd → option error;
  Write : Cmd → string → option error;
  Close : Cmd → option error;
  Output : Cmd → option string → string * option error;
}.
End exec.

(** ** Package [parsing] *)

(** Modelled from the spec: the declaration of [SymbolType] and of its
    constants [Identifier], [Literal], [Comment], [Info] and [Error] is not
    in the embedded file.  The spec gives the symbol kind of a record as
    identifier | literal | comment | informational | error, and any other
    kind as unrecognised; the latter keeps its wire tag. *)
Inductive SymbolType : Type :=
| Identifier
| Literal
| Comment
| Info
| Error
| Unrecognised (tag : string).

(** [fmt.Sprintf("%s", t)] on the only kinds [parseJS] prints. *)
Definition SymbolType_string (t : SymbolType) : string :=
  match t with
  | Identifier => "Identifier"
  | Literal => "Literal"
  | Comment => "Comment"
  | Info => "Info"
  | Error => "Error"
  | Unrecognised tag => tag
  end.

(** [parserOutputElement]: the output JSON format of the JS parser. *)
Record parserOutputElement : Type := {
  elSymbolType : SymbolType;
  elSymbolSubtype : string;
  elData : any;
  elPos : Z * Z;
  elExtra : gmap string any;
}.

Module json.
(** [json.NewDecoder(strings.NewReader(text)).Decode(&storage)]: the decoded
    records, or the decoding error. *)
Class API : Type := {
  Decode : string → error + list parserOutputElement;
}.
End json.

(** [ParserConfig], [parsedIdentifier], [parsedLiteral], [parsedComment] and
    [parserOutput] are declared outside the embedded file; their fields are
    the ones [parseJS] reads and writes. *)
Record ParserConfig : Type := { ParserPath : string }.

Record parsedIdentifier `{!token.API} : Type := {
  idType : token.IdentifierType;
  idName : string;
  idPos : Z * Z;
}.

Record parsedLiteral : Type := {
  litType : string;
  litGoType : string;
  litValue : any;
  litRawValue : string;
  litInArray : bool;
  litPos : Z * Z;
}.

Record parsedComment : Type := {
  cmType : string;
  cmData : string;
  cmPos : Z * Z;
}.

Record parserOutput `{!token.API} : Type := {
  ValidInput : bool;
  Identifiers : list parsedIdentifier;
  Literals : list parsedLiteral;
  Comments : list parsedComment;
}.

Section parsing.
Context `{!token.API, !big.API, !exec.OS, !json.API}.

(** The zero value of [parserOutput], which the named result starts as. *)
Definition zeroOutput : parserOutput :=
  {| ValidInput := false; Identifiers := []; Literals := []; Comments := [] |}.

(** Modelled from the spec: the variable [InvalidInput] is declared outside
    the embedded file.  On the sentinel exit code the adapter returns a
    result flagged invalid, with no decoded content. *)
Definition InvalidInput : parserOutput :=
  {| ValidInput := false; Identifiers := []; Literals := []; Comments := [] |}.

Definition syntaxErrorExitCode : Z := 33.

(** What [runParser] returns once [cmd.Output()] has returned. *)
Definition afterOutput (r : string * option error) : string * option error :=
  match r.2 with
  | Some err => ("", Some err)
  | None => (r.1, None)
  end.

(** The command [runParser] builds: [node] on the parser, and on the file
    when there is one. *)
Definition nodeCommand (parserPath jsFilePath : string) : exec.Cmd :=
  let nodeArgs := [parserPath] in
  let nodeArgs :=
    if (0 <? String.length jsFilePath)%nat then (nodeArgs ++ [jsFilePath])%list
    else nodeArgs in
  exec.Command "node" nodeArgs.

(** [runParser] calls the parser program on the source, given by file name
    or piped to the standard input of the program. *)
Definition runParser (parserPath jsFilePath jsSource : string)
  : string * option error :=
  let cmd := nodeCommand parserPath jsFilePath in
  if (String.length jsFilePath =? 0)%nat then
    match exec.StdinPipe cmd with
    | Some pipeErr =>
        ("", Some (Errorf "runParser failed to create pipe: %v" pipeErr))
    | None =>
        match exec.Write cmd jsSource with
        | Some pipeErr =>
            ("", Some (Errorf "runParser failed to write source string to pipe: %w" pipeErr))
        | None =>
            match exec.Close cmd with
            | Some pipeErr =>
                ("", Some (Errorf "runParser failed to close pipe: %w" pipeErr))
            | None => afterOutput (exec.Output cmd (Some jsSource))
            end
        end
    end
  else afterOutput (exec.Output cmd None).

(** The literal of a [Literal] record before the big-integer check; the
    assertion on [Extra["raw"]] is the only field that can panic. *)
Definition newLiteral (element : parserOutputElement) : outcome parsedLiteral :=
  raw ← assertString (index (elExtra element) "raw");
  Returned {| litType := elSymbolSubtype element;
          litGoType := typeName (elData element);
          litValue := elData element;
          litRawValue := raw;
          litInArray := eqTrue (index (elExtra element) "array");
          litPos := elPos element |}.

(** The check for big integers, which JSON has to represent as strings. *)
Definition checkBigInt (literal : parsedLiteral) : parsedLiteral :=
  if (litType literal =? "Numeric")%string && (litGoType literal =? "string")%string then
    match asString (litValue literal) with
    | Some intAsString =>
        match big.SetString intAsString 0 with
        | Some bigInt =>
            {| litType := litType literal;
               litGoType := "big.Int";
               litValue := ABigInt bigInt;
               litRawValue := litRawValue literal;
               litInArray := litInArray literal;
               litPos := litPos literal |}
        | None => literal
        end
    | None => literal
    end
  else literal.

Definition appendIdentifier (result : parserOutput) (i : parsedIdentifier) : parserOutput :=
  {| ValidInput := ValidInput result;
     Identifiers := (Identifiers result ++ [i])%list;
     Literals := Literals result;
     Comments := Comments result |}.

Definition appendLiteral (result : parserOutput) (l : parsedLiteral) : parserOutput :=
  {| ValidInput := ValidInput result;
     Identifiers := Identifiers result;
     Literals := (Literals result ++ [l])%list;
     Comments := Comments result |}.

Definition appendComment (result : parserOutput) (c : parsedComment) : parserOutput :=
  {| ValidInput := ValidInput result;
     Identifiers := Identifiers result;
     Literals := Literals result;
     Comments := (Comments result ++ [c])%list |}.

(** One iteration of the loop of [parseJS]: the [switch] on the symbol type
    of [element], on the result so far and the warnings logged so far. *)
Definition convertElement (element : parserOutputElement)
    (acc : parserOutput * list string) : outcome (parserOutput * list string) :=
  let '(result, warnings) := acc in
  match elSymbolType element with
  | Identifier =>
      let symbolSubtype := token.CheckIdentifierType (elSymbolSubtype element) in
      if bool_decide (symbolSubtype = token.Other)
         || bool_decide (symbolSubtype = token.Unknown)
      then Returned (result, warnings)
      else
        name ← assertString (elData element);
        Returned (appendIdentifier result
                {| idType := token.CheckIdentifierType (elSymbolSubtype element);
                   idName := name;
                   idPos := elPos element |}, warnings)
  | Literal =>
      literal ← newLiteral element;
      Returned (appendLiteral result (checkBigInt literal), warnings)
  | Comment =>
      data ← assertString (elData element);
      Returned (appendComment result
              {| cmType := elSymbolSubtype element;
                 cmData := data;
                 cmPos := elPos element |}, warnings)
  | Info | Error => Returned (result, warnings)
  | other =>
      Returned (result,
            (warnings ++ ["parseJS: unrecognised symbol type " +:+ SymbolType_string other])%list)
  end.

(** The loop over the decoded records. *)
Fixpoint convertElements (storage : list parserOutputElement)
    (acc : parserOutput * list string) : outcome (parserOutput * list string) :=
  match storage with
  | [] => Returned acc
  | element :: rest => acc' ← convertElement element acc; convertElements rest acc'
  end.

(** [parseJS] extracts identifiers, literals and comments from JavaScript
    code.  It returns its three results and the warnings it logged, or
    panics. *)
Definition parseJS (parserConfig : ParserConfig) (filePath sourceString : string)
  : outcome (parserOutput * string * option error * list string) :=
  let '(parserOutputText, err) := runParser (ParserPath parserConfig) filePath sourceString in
  match err with
  | Some err =>
      match asExitError err with
      | Some (exitCode, stderr) =>
          if (exitCode =? syntaxErrorExitCode)%Z
          then Returned (InvalidInput, "", None, [])
          else Returned (zeroOutput, stderr, Some err, [])
      | None => Returned (zeroOutput, parserOutputText, Some err, [])
      end
  | None =>
      match json.Decode parserOutputText with
      | inl err => Returned (zeroOutput, parserOutputText, Some err, [])
      | inr storage =>
          let result :=
            {| ValidInput := true; Identifiers := Identifiers zeroOutput;
               Literals := Literals zeroOutput; Comments := Comments zeroOutput |} in
          '(result, warnings) ← convertElements storage (result, []);
          Returned (result, parserOutputText, None, warnings)
      end
  end.

(** *** Vocabulary of the statements *)

(** The parser process was started on the source and exited with [code],
    having written [stdout] and [stderr]: the source reached it by file
    name or through a pipe that was written and closed without error. *)
Definition parserExits (parserPath filePath sourceString : string)
    (code : Z) (stdout stderr : string) : Prop :=
  let cmd := nodeCommand parserPath filePath in
  if (String.length filePath =? 0)%nat then
    exec.StdinPipe cmd = None ∧ exec.Write cmd sourceString = None
    ∧ exec.Close cmd = None
    ∧ exec.Output cmd (Some sourceString) = (stdout, Some (ExitError code stderr))
  else exec.Output cmd None = (stdout, Some (ExitError code stderr)).

(** The parser process exited successfully with [stdout], which decodes to
    the records [storage]. *)
Definition parserGives (parserPath filePath sourceString : string)
    (stdout : string) (storage : list parserOutputElement) : Prop :=
  runParser parserPath filePath sourceString = (stdout, None)
  ∧ json.Decode stdout = inr storage.

Definition isText (v : any) : bool :=
  match v with
  | AString _ => true
  | _ => false
  end.

Definition isIdentifier (element : parserOutputElement) : bool :=
  match elSymbolType element with Identifier => true | _ => false end.

Definition isLiteral (element : parserOutputElement) : bool :=
  match elSymbolType element with Literal => true | _ => false end.

Definition isComment (element : parserOutputElement) : bool :=
  match elSymbolType element with Comment => true | _ => false end.

(** The classification of an identifier record is [Other] or [Unknown]. *)
Definition classifiedAway (element : parserOutputElement) : bool :=
  bool_decide (token.CheckIdentifierType (elSymbolSubtype element) = token.Other)
  || bool_decide (token.CheckIdentifierType (elSymbolSubtype element) = token.Unknown).

Definition keptIdentifier (element : parserOutputElement) : bool :=
  isIdentifier element && negb (classifiedAway element).

(** The payload of a record has the shape its kind requires: text data for
    an identifier that is kept and for a comment, a text [raw] attribute for
    a literal. *)
Definition wellShaped (element : parserOutputElement) : bool :=
  match elSymbolType element with
  | Identifier => classifiedAway element || isText (elData element)
  | Literal => isText (index (elExtra element) "raw")
  | Comment => isText (elData element)
  | _ => true
  end.

(** A parsed identifier, literal or comment is the decoding of a record. *)
Definition decodesIdentifier (element : parserOutputElement) (i : parsedIdentifier) : Prop :=
  idType i = token.CheckIdentifierType (elSymbolSubtype element)
  ∧ elData element = AString (idName i)
  ∧ idPos i = elPos element.

Definition decodesLiteral (element : parserOutputElement) (l : parsedLiteral) : Prop :=
  ∃ raw, index (elExtra element) "raw" = AString raw
  ∧ l = checkBigInt
          {| litType := elSymbolSubtype element;
             litGoType := typeName (elData element);
             litValue := elData element;
             litRawValue := raw;
             litInArray := eqTrue (index (elExtra element) "array");
             litPos := elPos element |}.

Definition decodesComment (element : parserOutputElement) (c : parsedComment) : Prop :=
  cmType c = elSymbolSubtype element
  ∧ elData element = AString (cmData c)
  ∧ cmPos c = elPos element.

End parsing.

Section parsing_example.
Context `{!token.API, !big.API, !exec.OS, !json.API}.

(** The calls [RunExampleParsing] makes to the builtin [println] and to the
    printing functions of [fmt], with their arguments. *)
Inductive printed : Type :=
| println (args : list string)
| Println (text : string)
| Printf (text : string)
| PrintfError (err : error)
| PrintfIdentifier (identifier : parsedIdentifier)
| PrintfLiteral (literal : parsedLiteral)
| PrintfComment (comment : parsedComment).

Definition newline : string := String (Ascii.ascii_of_nat 10) "".

(** [RunExampleParsing] parses the source and prints what [parseJS]
    returned: the calls it made to the printing functions, in order, and the
    warnings [parseJS] logged. *)
Definition RunExampleParsing (config : ParserConfig) (jsFilePath jsSourceString : string)
  : outcome (list printed * list string) :=
  '(parseResult, parserOutputText, err, warnings) ←
    parseJS config jsFilePath jsSourceString;
  let out := [println [newline +:+ "Raw JSON:" +:+ newline; parserOutputText]] in
  match err with
  | Some err =>
      let out := (out ++ [PrintfError err])%list in
      let out :=
        match asExitError err with
        | Some (_, stderr) => (out ++ [Printf ("Process stderr:" +:+ newline); Println stderr])%list
        | None => out
        end in
      Returned (out, warnings)
  | None =>
      let out := (out ++ [Println "Completed without errors"])%list in
      let out := (out ++ [println []; println ["== Parsed Identifiers =="]])%list in
      let out := (out ++ (PrintfIdentifier <$> Identifiers parseResult))%list in
      let out := (out ++ [println []; println ["== Parsed Literals =="]])%list in
      let out := (out ++ (PrintfLiteral <$> Literals parseResult))%list in
      let out := (out ++ [println []; println ["== Parsed Comments =="]])%list in
      let out := (out ++ (PrintfComment <$> Comments parseResult))%list in
      Returned (out, warnings)
  end.

(** *** More vocabulary of the statements *)

(** What the parser process reads on its standard input: the source when
    there is no file, nothing otherwise. *)
Definition stdinOf (filePath sourceString : string) : option string :=
  if (String.length filePath =? 0)%nat then Some sourceString else None.

(** The wire tags of the records of unrecognised kind, in order. *)
Definition unrecognisedTags (storage : list parserOutputElement) : list string :=
  omap (λ element,
          match elSymbolType element with
          | Unrecognised tag => Some tag
          | _ => None
          end) storage.

(** The parts of the output that print the items of a result. *)
Definition printedItems (out : list printed)
  : list parsedIdentifier * list parsedLiteral * list parsedComment :=
  (omap (λ p, match p with PrintfIdentifier i => Some i | _ => None end) out,
   omap (λ p, match p with PrintfLiteral l => Some l | _ => None end) out,
   omap (λ p, match p with PrintfComment c => Some c | _ => None end) out).

End parsing_example.

(** ** Packages [analysis], [pkgecosystem], [sandbox] and [dynamicanalysis] *)

Module analysis.
(** [Status] is a string type: [RunDynamicAnalysis] assigns it the empty
    string.  The constant [StatusCompleted] is declared outside the embedded
    files. *)
Definition Status : Type := string.
Class API : Type := {
  StatusCompleted : Status;
}.
End analysis.

Module pkgecosystem.
(** The type of run phases, with its zero value, and the type of the
    commands a package gives for them. *)
Class API : Type := {
  RunPhase : Type;
  RunPhase_eq_dec :: EqDecision RunPhase;
  RunPhase_countable :: Countable RunPhase;
  RunPhase_zero : RunPhase;
  Cmd : Type;
}.

(** What [RunDynamicAnalysis] asks of a package manager and of a package:
    the ordered run phases, and the command of a phase. *)
Record PkgManager `{!API} : Type := { RunPhases : list RunPhase }.
Record Pkg `{!API} : Type := {
  Manager : PkgManager;
  Command : RunPhase → Cmd;
}.
End pkgecosystem.
#[global] Existing Instance pkgecosystem.RunPhase_eq_dec.
#[global] Existing Instance pkgecosystem.RunPhase_countable.

Module sandbox.
(** The state of a [sandbox.Sandbox]. *)
Class API : Type := {
  Sandbox : Type;
}.
End sandbox.

Module dynamicanalysis.
(** The two parts of a phase result; a syscall summary has a [Status]. *)
Class Types : Type := {
  StraceSummary : Type;
  Status : StraceSummary → analysis.Status;
  FileWrites : Type;
}.

Record Result `{!Types} : Type := {
  resStraceSummary : StraceSummary;
  resFileWrites : FileWrites;
}.

(** [Run sb cmd] executes [cmd] in the sandbox: the sandbox afterwards, and
    the result or the infrastructure error. *)
Class API `{!Types, !sandbox.API, !pkgecosystem.API} : Type := {
  Run : sandbox.Sandbox → pkgecosystem.Cmd → sandbox.Sandbox * (error + Result);
}.
End dynamicanalysis.

(** ** Package [worker] *)

Section worker.
Context `{!analysis.API, !pkgecosystem.API, !sandbox.API,
          !dynamicanalysis.Types, !dynamicanalysis.API}.

Record DynamicAnalysisResults : Type := {
  StraceSummary : gmap pkgecosystem.RunPhase dynamicanalysis.StraceSummary;
  FileWrites : gmap pkgecosystem.RunPhase dynamicanalysis.FileWrites;
}.

(** The calls to the logging functions of the package, which are declared
    outside the embedded file. *)
Inductive LogEvent : Type :=
| LogDynamicAnalysisError (pkg : pkgecosystem.Pkg) (phase : pkgecosystem.RunPhase) (err : error)
| LogDynamicAnalysisResult (pkg : pkgecosystem.Pkg) (phase : pkgecosystem.RunPhase)
    (status : analysis.Status).

(** The variables of the loop of [RunDynamicAnalysis], the sandbox, and the
    phases [dynamicanalysis.Run] has been called for so far, in order. *)
Record walk : Type := {
  results : DynamicAnalysisResults;
  lastRunPhase : pkgecosystem.RunPhase;
  lastStatus : analysis.Status;
  lastError : option error;
  sb : sandbox.Sandbox;
  attempted : list pkgecosystem.RunPhase;
}.

Definition startWalk (sb : sandbox.Sandbox) : walk :=
  {| results := {| StraceSummary := ∅; FileWrites := ∅ |};
     lastRunPhase := pkgecosystem.RunPhase_zero;
     lastStatus := "";
     lastError := None;
     sb := sb;
     attempted := [] |}.

(** [results.StraceSummary[phase] = ...; results.FileWrites[phase] = ...]. *)
Definition record (phase : pkgecosystem.RunPhase) (result : dynamicanalysis.Result)
    (results : DynamicAnalysisResults) : DynamicAnalysisResults :=
  {| StraceSummary := <[phase := dynamicanalysis.resStraceSummary result]> (StraceSummary results);
     FileWrites := <[phase := dynamicanalysis.resFileWrites result]> (FileWrites results) |}.

(** The loop over the run phases; a [break] leaves the remaining phases
    untouched. *)
Fixpoint runPhases (pkg : pkgecosystem.Pkg) (phases : list pkgecosystem.RunPhase)
    (w : walk) : walk :=
  match phases with
  | [] => w
  | phase :: rest =>
      let '(sb', r) := dynamicanalysis.Run (sb w) (pkgecosystem.Command pkg phase) in
      match r with
      | inl err =>
          {| results := results w;
             lastRunPhase := phase;
             lastStatus := "";
             lastError := Some err;
             sb := sb';
             attempted := (attempted w ++ [phase])%list |}
      | inr result =>
          let lastStatus := dynamicanalysis.Status (dynamicanalysis.resStraceSummary result) in
          let w' :=
            {| results := record phase result (results w);
               lastRunPhase := phase;
               lastStatus := lastStatus;
               lastError := lastError w;
               sb := sb';
               attempted := (attempted w ++ [phase])%list |} in
          if bool_decide (lastStatus ≠ analysis.StatusCompleted) then w'
          else runPhases pkg rest w'
      end
  end.

(** What a call leaves behind outside its results: the sandbox, the phases
    it called [dynamicanalysis.Run] for, and what it logged. *)
Record effects : Type := {
  sandboxAfter : sandbox.Sandbox;
  phasesRun : list pkgecosystem.RunPhase;
  logged : list LogEvent;
}.

(** [RunDynamicAnalysis] runs dynamic analysis on the package in the
    sandbox, across the phases of its ecosystem. *)
Definition RunDynamicAnalysis (sb0 : sandbox.Sandbox) (pkg : pkgecosystem.Pkg)
  : (DynamicAnalysisResults * pkgecosystem.RunPhase * analysis.Status * option error)
    * effects :=
  let w := runPhases pkg (pkgecosystem.RunPhases (pkgecosystem.Manager pkg)) (startWalk sb0) in
  let event :=
    match lastError w with
    | Some err => LogDynamicAnalysisError pkg (lastRunPhase w) err
    | None => LogDynamicAnalysisResult pkg (lastRunPhase w) (lastStatus w)
    end in
  ((results w, lastRunPhase w, lastStatus w, lastError w),
   {| sandboxAfter := sb w; phasesRun := attempted w; logged := [event] |}).

(** *** Vocabulary of the statements *)

(** [completes pkg sb0 phases] runs the phases one after the other from the
    sandbox [sb0] and succeeds when each invocation returns a result whose
    status is [StatusCompleted]: it gives the sandbox afterwards and the
    result of each phase. *)
Fixpoint completes (pkg : pkgecosystem.Pkg) (sb0 : sandbox.Sandbox)
    (phases : list pkgecosystem.RunPhase)
  : option (sandbox.Sandbox * list (pkgecosystem.RunPhase * dynamicanalysis.Result)) :=
  match phases with
  | [] => Some (sb0, [])
  | phase :: rest =>
      match dynamicanalysis.Run sb0 (pkgecosystem.Command pkg phase) with
      | (sb', inr result) =>
          if bool_decide (dynamicanalysis.Status (dynamicanalysis.resStraceSummary result)
                          = analysis.StatusCompleted)
          then
            match completes pkg sb' rest with
            | Some (sb'', outs) => Some (sb'', (phase, result) :: outs)
            | None => None
            end
          else None
      | (_, inl _) => None
      end
  end.

(** The aggregate holding the given phase results, recorded in order. *)
Definition recorded (outs : list (pkgecosystem.RunPhase * dynamicanalysis.Result))
    (results : DynamicAnalysisResults) : DynamicAnalysisResults :=
  foldl (λ acc out, record out.1 out.2 acc) results outs.

Definition noResults : DynamicAnalysisResults :=
  {| StraceSummary := ∅; FileWrites := ∅ |}.

(** Both maps of the aggregate have the same phases. *)
Definition aligned (r : DynamicAnalysisResults) : Prop :=
  dom (StraceSummary r) = dom (FileWrites r).

End worker.

(** ** Sample collaborators

    Small instances of the interfaces above, on which the definitions are
    run. *)

Module sample.

Inductive role : Type := RoleUnknown | RoleFunction | RoleVariable | RoleOther.

#[local] Instance role_eq_dec : EqDecision role.
Proof. solve_decision. Defined.

Definition classify (subtype : string) : role :=
  if (subtype =? "Function")%string then RoleFunction
  else if (subtype =? "Variable")%string then RoleVariable
  else if (subtype =? "Other")%string then RoleOther
  else RoleUnknown.

Definition tokens : token.API :=
  {| token.IdentifierType := role;
     token.Other := RoleOther;
     token.Unknown := RoleUnknown;
     token.CheckIdentifierType := classify |}.

(** A reader of unsigned decimal numerals without leading zero. *)
Fixpoint digits (s : string) (acc : Z) : option Z :=
  match s with
  | EmptyString => Some acc
  | String c rest =>
      let n := Z.of_nat (Ascii.nat_of_ascii c) in
      if (48 <=? n) && (n <=? 57) then digits rest (10 * acc + (n - 48)) else None
  end.

Definition numeral (s : string) (base : Z) : option Z :=
  if (base =? 0) || (base =? 10) then
    if (s =? "")%string || (String.prefix "0" s && (1 <? String.length s)%nat)
    then None
    else digits s 0
  else None.

Definition bigs : big.API := {| big.SetString := numeral |}.

(** An operating system whose pipes work and whose every command writes
    [stdout] and ends with [err]. *)
Definition scripted (stdout : string) (err : option error) : exec.OS :=
  {| exec.StdinPipe := λ _, None;
     exec.Write := λ _ _, None;
     exec.Close := λ _, None;
     exec.Output := λ _ _, (stdout, err) |}.

(** A decoder that reads the given records off every text. *)
Definition decoder (storage : list parserOutputElement) : json.API :=
  {| json.Decode := λ _, inr storage |}.

Definition record_ (kind : SymbolType) (subtype : string) (data : any)
    (extra : list (string * any)) : parserOutputElement :=
  {| elSymbolType := kind; elSymbolSubtype := subtype; elData := data;
     elPos := (0, 0); elExtra := list_to_map extra |}.

Definition config : ParserConfig := {| ParserPath := "parser.js" |}.

(** Four literal records: a big integer sent as text, text that is not a
    number, a native number, and a string literal. *)
Definition literals : list parserOutputElement :=
  [ record_ Literal "Numeric" (AString "123456789012345678901234567890")
      [("raw", AString "123456789012345678901234567890n"); ("array", ABool true)];
    record_ Literal "Numeric" (AString "12x") [("raw", AString "12x")];
    record_ Literal "Numeric" (AFloat64 1.5%float)
      [("raw", AString "1.5"); ("array", ABool false)];
    record_ Literal "String" (AString "42")
      [("raw", AString "'42'"); ("array", AString "true")] ].

(** Identifier records of four classifications among other records; the
    one classified as [Other] has a payload that is not text. *)
Definition identifiers : list parserOutputElement :=
  [ record_ Identifier "Function" (AString "f") [];
    record_ Identifier "Other" (AFloat64 0%float) [];
    record_ Comment "Line" (AString " note") [];
    record_ Identifier "Getter" (AString "x") [];
    record_ (Unrecognised "Shebang") "" ANil [];
    record_ Identifier "Variable" (AString "v") [] ].

(** A batch whose second record is an identifier with a number as data. *)
Definition malformed : list parserOutputElement :=
  [ record_ Comment "Line" (AString "fine") [];
    record_ Identifier "Function" (AFloat64 1%float) [];
    record_ Identifier "Variable" (AString "v") [] ].

(** A literal record without the attribute [raw]. *)
Definition rawless : parserOutputElement :=
  record_ Literal "String" (AString "s") [("array", ABool true)].

Definition statuses : analysis.API := {| analysis.StatusCompleted := "completed" |}.

Definition ecosystem : pkgecosystem.API :=
  {| pkgecosystem.RunPhase := string;
     pkgecosystem.RunPhase_zero := "";
     pkgecosystem.Cmd := string |}.

(** A sandbox that counts the commands it has run. *)
Definition sandboxes : sandbox.API := {| sandbox.Sandbox := nat |}.

Definition summaries : dynamicanalysis.Types :=
  {| dynamicanalysis.StraceSummary := string * nat;
     dynamicanalysis.Status := fst;
     dynamicanalysis.FileWrites := list string |}.

(** [install] completes, [import] times out, the sandbox cannot run
    [execute]. *)
Definition run (sb : @sandbox.Sandbox sandboxes) (cmd : @pkgecosystem.Cmd ecosystem)
  : @sandbox.Sandbox sandboxes * (error + @dynamicanalysis.Result summaries) :=
  (S sb,
   if (cmd =? "execute")%string then inl (OtherError "sandbox unavailable")
   else if (cmd =? "import")%string then
     inr (@dynamicanalysis.Build_Result summaries ("timeout", sb) [])
   else
     inr (@dynamicanalysis.Build_Result summaries ("completed", sb) [cmd])).

Definition runner : @dynamicanalysis.API summaries sandboxes ecosystem :=
  {| dynamicanalysis.Run := run |}.

Definition package (phases : list string) : @pkgecosystem.Pkg ecosystem :=
  @pkgecosystem.Build_Pkg ecosystem
    (@pkgecosystem.Build_PkgManager ecosystem phases) (λ phase, phase).

(** An operating system whose pipe calls end with the given errors, if
    any. *)
Definition pipes (create write close : option error) : exec.OS :=
  {| exec.StdinPipe := λ _, create;
     exec.Write := λ _ _, write;
     exec.Close := λ _, close;
     exec.Output := λ _ _, ("", None) |}.

(** An operating system whose parser echoes its standard input, or the name
    of the file it is given. *)
Definition echo : exec.OS :=
  {| exec.StdinPipe := λ _, None;
     exec.Write := λ _ _, None;
     exec.Close := λ _, None;
     exec.Output := λ cmd stdin, (default (String.concat " " (exec.Args cmd)) stdin, None) |}.

(** A decoder that rejects every text. *)
Definition rejecting (err : error) : json.API := {| json.Decode := λ _, inl err |}.

End sample.

(** * Properties of [parseJS] *)

Section parsing_properties.
Context `{!token.API, !big.API, !exec.OS, !json.API}.

Lemma returns_Returned {A} (a : A) : returns (Returned a).
Proof. by exists a. Qed.

Lemma panics_Panicked {A} (p : panic) : panics (@Panicked A p).
Proof. by exists p. Qed.

Lemma returns_not_panics {A} (o : outcome A) : returns o → ¬ panics o.
Proof. intros [a ->] [p Hp]. discriminate. Qed.

(** The unchecked assertion returns exactly on text. *)
Lemma assertString_Returned v s : assertString v = Returned s ↔ v = AString s.
Proof. destruct v; simpl; split; intros Hv; congruence. Qed.

Lemma assertString_text v : isText v = true → ∃ s, v = AString s.
Proof. destruct v; simpl; try discriminate. eauto. Qed.

Lemma assertString_panics v :
  isText v = false →
  assertString v
  = Panicked (InterfaceConversion (match v with ANil => "nil" | _ => typeName v end) "string").
Proof. destruct v; simpl; congruence. Qed.

(** *** One record *)

Lemma convertElement_panics element acc :
  wellShaped element = false → panics (convertElement element acc).
Proof.
  destruct acc as [r w]. unfold wellShaped, convertElement, newLiteral.
  destruct (elSymbolType element); try discriminate.
  - fold (classifiedAway element).
    destruct (classifiedAway element); simpl; [discriminate |].
    intros Hv. rewrite (assertString_panics _ Hv). apply panics_Panicked.
  - intros Hv. rewrite (assertString_panics _ Hv). apply panics_Panicked.
  - intros Hv. rewrite (assertString_panics _ Hv). apply panics_Panicked.
Qed.

Lemma convertElement_returns element acc :
  wellShaped element = true → returns (convertElement element acc).
Proof.
  destruct acc as [r w]. unfold wellShaped, convertElement, newLiteral.
  destruct (elSymbolType element); try (intros _; apply returns_Returned).
  - fold (classifiedAway element).
    destruct (classifiedAway element); simpl; [intros _; apply returns_Returned |].
    intros [s ->]%assertString_text. apply returns_Returned.
  - intros [s ->]%assertString_text. apply returns_Returned.
  - intros [s ->]%assertString_text. apply returns_Returned.
Qed.

(** What one iteration that returns has done to the three sequences. *)
Lemma convertElement_Returned element r w r' w' :
  convertElement element (r, w) = Returned (r', w') →
  ValidInput r' = ValidInput r
  ∧ (if keptIdentifier element
     then ∃ i, decodesIdentifier element i ∧ Identifiers r' = (Identifiers r ++ [i])%list
     else Identifiers r' = Identifiers r)
  ∧ (if isLiteral element
     then ∃ l, decodesLiteral element l ∧ Literals r' = (Literals r ++ [l])%list
     else Literals r' = Literals r)
  ∧ (if isComment element
     then ∃ c, decodesComment element c ∧ Comments r' = (Comments r ++ [c])%list
     else Comments r' = Comments r).
Proof.
  unfold convertElement, keptIdentifier, isIdentifier, isLiteral, isComment, newLiteral.
  destruct (elSymbolType element) eqn:Hkind; simpl.
  - fold (classifiedAway element). destruct (classifiedAway element); simpl.
    + intros [= <- <-]. done.
    + destruct (assertString (elData element)) as [name|] eqn:Hname; simpl; [|discriminate].
      apply assertString_Returned in Hname. intros [= <- <-]. simpl.
      split_and!; try done. eexists. split; [|done]. by split_and!.
  - destruct (assertString (index (elExtra element) "raw")) as [raw|] eqn:Hraw;
      simpl; [|discriminate].
    apply assertString_Returned in Hraw. intros [= <- <-]. simpl.
    split_and!; try done. eexists. split; [|done]. by exists raw.
  - destruct (assertString (elData element)) as [data|] eqn:Hdata; simpl; [|discriminate].
    apply assertString_Returned in Hdata. intros [= <- <-]. simpl.
    split_and!; try done. eexists. split; [|done]. by split_and!.
  - intros [= <- <-]. done.
  - intros [= <- <-]. done.
  - intros [= <- <-]. done.
Qed.

(** *** The loop *)

#[local] Arguments convertElement : simpl never.

Lemma convertElements_app xs ys acc :
  convertElements (xs ++ ys) acc = convertElements xs acc ≫= convertElements ys.
Proof.
  revert acc. induction xs as [|x xs IH]; intros acc; simpl; [done|].
  destruct (convertElement x acc); simpl; [apply IH | done].
Qed.

Lemma convertElements_returns storage acc :
  forallb wellShaped storage = true → returns (convertElements storage acc).
Proof.
  revert acc. induction storage as [|element rest IH]; intros acc; simpl.
  - intros _. apply returns_Returned.
  - intros [Hel Hrest]%andb_prop.
    destruct (convertElement_returns element acc Hel) as [acc' ->]. simpl. by apply IH.
Qed.

Lemma convertElements_panics storage acc :
  forallb wellShaped storage = false → panics (convertElements storage acc).
Proof.
  revert acc. induction storage as [|element rest IH]; intros acc; simpl; [discriminate|].
  destruct (wellShaped element) eqn:Hel; simpl.
  - intros Hrest. destruct (convertElement_returns element acc Hel) as [acc' ->]. simpl.
    by apply IH.
  - intros _. destruct (convertElement_panics element acc Hel) as [p ->]. apply panics_Panicked.
Qed.

Lemma convertElements_Returned storage r w r' w' :
  convertElements storage (r, w) = Returned (r', w') →
  ValidInput r' = ValidInput r
  ∧ (∃ ids, Identifiers r' = (Identifiers r ++ ids)%list
        ∧ Forall2 decodesIdentifier (List.filter keptIdentifier storage) ids)
  ∧ (∃ lits, Literals r' = (Literals r ++ lits)%list
        ∧ Forall2 decodesLiteral (List.filter isLiteral storage) lits)
  ∧ (∃ cms, Comments r' = (Comments r ++ cms)%list
        ∧ Forall2 decodesComment (List.filter isComment storage) cms).
Proof.
  revert r w. induction storage as [|element rest IH]; intros r w; simpl.
  - intros [= <- <-]. split_and!; [done | exists []; rewrite List.app_nil_r; by split..].
  - destruct (convertElement element (r, w)) as [[r1 w1]|] eqn:Hstep; simpl; [|discriminate].
    intros Hrest. apply convertElement_Returned in Hstep as (Hv & Hid & Hlit & Hcm).
    apply IH in Hrest as (Hv' & (ids & Hids & Fids) & (lits & Hlits & Flits) & (cms & Hcms & Fcms)).
    split_and!.
    + congruence.
    + destruct (keptIdentifier element).
      * destruct Hid as (i & Hi & Hr1). exists (i :: ids). rewrite Hids, Hr1, <- app_assoc.
        split; [done | by constructor].
      * exists ids. by rewrite Hids, Hid.
    + destruct (isLiteral element).
      * destruct Hlit as (l & Hl & Hr1). exists (l :: lits). rewrite Hlits, Hr1, <- app_assoc.
        split; [done | by constructor].
      * exists lits. by rewrite Hlits, Hlit.
    + destruct (isComment element).
      * destruct Hcm as (c & Hc & Hr1). exists (c :: cms). rewrite Hcms, Hr1, <- app_assoc.
        split; [done | by constructor].
      * exists cms. by rewrite Hcms, Hcm.
Qed.

(** *** The whole function *)

Lemma runParser_exits parserPath filePath sourceString code stdout stderr :
  parserExits parserPath filePath sourceString code stdout stderr →
  runParser parserPath filePath sourceString = ("", Some (ExitError code stderr)).
Proof.
  unfold parserExits, runParser.
  destruct (String.length filePath =? 0)%nat.
  - intros (-> & -> & -> & ->). done.
  - intros ->. done.
Qed.

Lemma parseJS_decoded parserConfig filePath sourceString stdout storage :
  parserGives (ParserPath parserConfig) filePath sourceString stdout storage →
  parseJS parserConfig filePath sourceString
  = convertElements storage
      ({| ValidInput := true; Identifiers := []; Literals := []; Comments := [] |}, [])
    ≫= λ '(result, warnings), Returned (result, stdout, None, warnings).
Proof. intros [Hrun Hdecode]. unfold parseJS. by rewrite Hrun, Hdecode. Qed.

Lemma parseJS_Returned parserConfig filePath sourceString stdout storage result out err warnings :
  parserGives (ParserPath parserConfig) filePath sourceString stdout storage →
  parseJS parserConfig filePath sourceString = Returned (result, out, err, warnings) →
  out = stdout ∧ err = None ∧ ValidInput result = true
  ∧ Forall2 decodesIdentifier (List.filter keptIdentifier storage) (Identifiers result)
  ∧ Forall2 decodesLiteral (List.filter isLiteral storage) (Literals result)
  ∧ Forall2 decodesComment (List.filter isComment storage) (Comments result).
Proof.
  intros Hgives. rewrite (parseJS_decoded _ _ _ _ _ Hgives).
  destruct (convertElements storage _) as [[r w]|] eqn:Hloop; simpl; [|discriminate].
  intros [= <- <- <- <-].
  apply convertElements_Returned in Hloop
    as (Hv & (ids & -> & Fids) & (lits & -> & Flits) & (cms & -> & Fcms)).
  simpl in *. by split_and!.
Qed.

Lemma parseJS_panics parserConfig filePath sourceString stdout storage :
  parserGives (ParserPath parserConfig) filePath sourceString stdout storage →
  forallb wellShaped storage = false →
  panics (parseJS parserConfig filePath sourceString).
Proof.
  intros Hgives Hbad. rewrite (parseJS_decoded _ _ _ _ _ Hgives).
  destruct (convertElements_panics storage
    ({| ValidInput := true; Identifiers := []; Literals := []; Comments := [] |}, []) Hbad)
    as [p ->].
  apply panics_Panicked.
Qed.

Lemma parseJS_returns parserConfig filePath sourceString stdout storage :
  parserGives (ParserPath parserConfig) filePath sourceString stdout storage →
  forallb wellShaped storage = true →
  ∃ result warnings,
    parseJS parserConfig filePath sourceString = Returned (result, stdout, None, warnings).
Proof.
  intros Hgives Hok. rewrite (parseJS_decoded _ _ _ _ _ Hgives).
  destruct (convertElements_returns storage
    ({| ValidInput := true; Identifiers := []; Literals := []; Comments := [] |}, []) Hok)
    as [[r w] ->].
  by exists r, w.
Qed.

(** A record in the batch that is not well shaped makes the batch so. *)
Lemma forallb_wellShaped_false storage element :
  element ∈ storage → wellShaped element = false → forallb wellShaped storage = false.
Proof.
  intros Hin Hbad. apply not_true_is_false. intros Hall.
  rewrite forallb_forall in Hall. apply list_elem_of_In in Hin.
  specialize (Hall _ Hin). congruence.
Qed.

(** ** The claims on [parseJS] *)

(** When the parser gives records whose payloads all have the shape their
    kind requires, [parseJS] returns the parser output and a nil error; the
    result is valid and holds the decoding of each kept identifier, each
    literal and each comment, in order. *)
Lemma parseJS_well_shaped parserConfig filePath sourceString stdout storage :
  parserGives (ParserPath parserConfig) filePath sourceString stdout storage →
  forallb wellShaped storage = true →
  ∃ result warnings,
    parseJS parserConfig filePath sourceString = Returned (result, stdout, None, warnings)
    ∧ ValidInput result = true
    ∧ Forall2 decodesIdentifier (List.filter keptIdentifier storage) (Identifiers result)
    ∧ Forall2 decodesLiteral (List.filter isLiteral storage) (Literals result)
    ∧ Forall2 decodesComment (List.filter isComment storage) (Comments result).
Proof.
  intros Hgives Hok.
  destruct (parseJS_returns _ _ _ _ _ Hgives Hok) as (result & warnings & Hret).
  exists result, warnings.
  destruct (parseJS_Returned _ _ _ _ _ _ _ _ _ Hgives Hret) as (_ & _ & Hv & Hi & Hl & Hc).
  by split_and!.
Qed.

(** C2. When the parser process exits with the syntax-error code 33,
    whatever it wrote to its standard output and standard error, [parseJS]
    returns a result that is not valid and whose identifier, literal and
    comment sequences are empty, with a nil error. *)
Theorem parseJS_syntax_error parserConfig filePath sourceString stdout stderr :
  parserExits (ParserPath parserConfig) filePath sourceString 33 stdout stderr →
  ∃ result,
    parseJS parserConfig filePath sourceString = Returned (result, "", None, [])
    ∧ ValidInput result = false
    ∧ Identifiers result = [] ∧ Literals result = [] ∧ Comments result = [].
Proof.
  intros Hexit. exists InvalidInput. unfold parseJS.
  rewrite (runParser_exits _ _ _ _ _ _ Hexit). simpl. by split_and!.
Qed.

(** C5. In a returned result, the literal of a record of category Numeric
    whose data arrived as text holds the big integer that [SetString] reads
    from that text in base 0 (the base the text itself specifies, 10 by
    default) when it reads one, and the text unchanged when it does not; a
    literal whose data is a native number keeps that number. *)
Theorem parseJS_numeric_literals parserConfig filePath sourceString stdout storage
    result out err warnings :
  parserGives (ParserPath parserConfig) filePath sourceString stdout storage →
  parseJS parserConfig filePath sourceString = Returned (result, out, err, warnings) →
  Forall2
    (λ element literal,
       (∀ text n, elSymbolSubtype element = "Numeric" → elData element = AString text →
                  big.SetString text 0 = Some n → litValue literal = ABigInt n)
       ∧ (∀ text, elSymbolSubtype element = "Numeric" → elData element = AString text →
                  big.SetString text 0 = None → litValue literal = AString text)
       ∧ (∀ f, elData element = AFloat64 f → litValue literal = AFloat64 f))
    (List.filter isLiteral storage) (Literals result).
Proof.
  intros Hgives Hret.
  destruct (parseJS_Returned _ _ _ _ _ _ _ _ _ Hgives Hret) as (_ & _ & _ & _ & Hl & _).
  eapply Forall2_impl; [exact Hl|]. clear.
  intros element literal (raw & Hraw & ->). unfold checkBigInt. simpl. split_and!.
  - intros text n -> -> Hn. simpl. by rewrite Hn.
  - intros text -> -> Hn. simpl. by rewrite Hn.
  - intros f ->. simpl. by rewrite andb_false_r.
Qed.

(** C6. An identifier record whose subtype is classified as [Other] or
    [Unknown] is dropped silently: the iteration changes neither the result
    nor the warnings, and does not panic.  In a returned result, the
    identifier sequence holds, in order, the decoding of exactly the
    identifier records of every other classification, and no identifier of
    classification [Other] or [Unknown]. *)
Theorem parseJS_identifier_classes :
  (∀ element acc,
     isIdentifier element = true → classifiedAway element = true →
     convertElement element acc = Returned acc)
  ∧ (∀ parserConfig filePath sourceString stdout storage result out err warnings,
       parserGives (ParserPath parserConfig) filePath sourceString stdout storage →
       parseJS parserConfig filePath sourceString = Returned (result, out, err, warnings) →
       Forall2 decodesIdentifier (List.filter keptIdentifier storage) (Identifiers result)
       ∧ Forall (λ i, idType i ≠ token.Other ∧ idType i ≠ token.Unknown)
           (Identifiers result)).
Proof.
  split.
  - intros element [r w]. unfold isIdentifier, convertElement.
    destruct (elSymbolType element); try discriminate.
    intros _. fold (classifiedAway element). by intros ->.
  - intros parserConfig filePath sourceString stdout storage result out err warnings Hgives Hret.
    destruct (parseJS_Returned _ _ _ _ _ _ _ _ _ Hgives Hret) as (_ & _ & _ & Hi & _ & _).
    split; [done|].
    assert (Hkept : Forall (λ element, keptIdentifier element = true)
                      (List.filter keptIdentifier storage)).
    { apply Forall_forall. intros element Hin%list_elem_of_In.
      by apply filter_In in Hin as [_ Hk]. }
    revert Hi Hkept. generalize (List.filter keptIdentifier storage). intros kept.
    intros Hi.
    induction Hi as [|element i kept' ids (Ht & _ & _) Hrest IH]; intros Hkept; [constructor|].
    apply Forall_cons in Hkept as [Hk Hkept]. constructor; [|by apply IH].
    unfold keptIdentifier, classifiedAway in Hk.
    apply andb_prop in Hk as [_ Hk]. apply negb_true_iff, orb_false_elim in Hk as [Ho Hu].
    apply bool_decide_eq_false in Ho, Hu. rewrite Ht. done.
Qed.

(** C7. In a returned result, the [InArray] flag of each literal is true
    exactly when the extra attributes of its record bind the key [array] to
    the boolean true. *)
Theorem parseJS_InArray parserConfig filePath sourceString stdout storage
    result out err warnings :
  parserGives (ParserPath parserConfig) filePath sourceString stdout storage →
  parseJS parserConfig filePath sourceString = Returned (result, out, err, warnings) →
  Forall2
    (λ element literal,
       litInArray literal = true ↔ elExtra element !! "array" = Some (ABool true))
    (List.filter isLiteral storage) (Literals result).
Proof.
  intros Hgives Hret.
  destruct (parseJS_Returned _ _ _ _ _ _ _ _ _ Hgives Hret) as (_ & _ & _ & _ & Hl & _).
  eapply Forall2_impl; [exact Hl|]. clear.
  intros element literal (raw & Hraw & ->).
  assert (Hflag : ∀ l, litInArray (checkBigInt l) = litInArray l).
  { intros l. unfold checkBigInt.
    destruct (_ && _); [|done]. destruct (asString _); [|done]. by destruct (big.SetString _ _). }
  rewrite Hflag. simpl. unfold index.
  destruct (elExtra element !! "array") as [[| [] | | | | |]|]; simpl; split; congruence.
Qed.

(** C8. A literal record whose extra attributes do not bind the key [raw]
    to a string makes the literal branch panic, in every state of the loop;
    [parseJS] then panics on every batch that contains such a record, and
    returns neither a result nor an error. *)
Theorem parseJS_literal_without_raw element :
  isLiteral element = true →
  (∀ raw, elExtra element !! "raw" ≠ Some (AString raw)) →
  (∀ acc, panics (convertElement element acc))
  ∧ (∀ parserConfig filePath sourceString stdout storage,
       parserGives (ParserPath parserConfig) filePath sourceString stdout storage →
       element ∈ storage →
       panics (parseJS parserConfig filePath sourceString)
       ∧ ¬ returns (parseJS parserConfig filePath sourceString)).
Proof.
  intros Hlit Hraw.
  assert (Hbad : wellShaped element = false).
  { unfold isLiteral in Hlit. unfold wellShaped, index.
    destruct (elSymbolType element); try discriminate.
    destruct (elExtra element !! "raw") as [[]|] eqn:Hlook; simpl; try done.
    by destruct (Hraw s). }
  split.
  - intros acc. by apply convertElement_panics.
  - intros parserConfig filePath sourceString stdout storage Hgives Hin.
    pose proof (parseJS_panics _ _ _ _ _ Hgives (forallb_wellShaped_false _ _ Hin Hbad)) as Hp.
    split; [done|]. intros Hr. by apply returns_not_panics in Hr.
Qed.

End parsing_properties.

(** * Properties of [RunDynamicAnalysis] *)

Section worker_properties.
Context `{!analysis.API, !pkgecosystem.API, !sandbox.API,
          !dynamicanalysis.Types, !dynamicanalysis.API}.

Lemma aligned_record phase result r : aligned r → aligned (record phase result r).
Proof. unfold aligned, record. simpl. intros Hr. by rewrite !dom_insert_L, Hr. Qed.

Lemma runPhases_aligned pkg phases w :
  aligned (results w) → aligned (results (runPhases pkg phases w)).
Proof.
  revert w. induction phases as [|phase rest IH]; intros w Hw; simpl; [done|].
  destruct (dynamicanalysis.Run _ _) as [sb' [err|result]]; simpl; [done|].
  case_bool_decide; [by apply aligned_record|].
  apply IH. simpl. by apply aligned_record.
Qed.

Lemma recorded_snoc outs phase result r :
  recorded (outs ++ [(phase, result)]) r = record phase result (recorded outs r).
Proof. unfold recorded. by rewrite foldl_app. Qed.

Lemma recorded_cons phase result outs r :
  recorded ((phase, result) :: outs) r = recorded outs (record phase result r).
Proof. done. Qed.

Lemma dom_recorded outs r :
  dom (StraceSummary (recorded outs r)) = list_to_set outs.*1 ∪ dom (StraceSummary r).
Proof.
  revert r. induction outs as [|[phase result] outs IH]; intros r.
  - simpl. set_solver.
  - rewrite recorded_cons, IH. simpl. rewrite dom_insert_L. set_solver.
Qed.

Lemma completes_phases pkg sb0 phases sb1 outs :
  completes pkg sb0 phases = Some (sb1, outs) → outs.*1 = phases.
Proof.
  revert sb0 sb1 outs. induction phases as [|phase rest IH]; intros sb0 sb1 outs; simpl.
  - by intros [= <- <-].
  - destruct (dynamicanalysis.Run _ _) as [sb' [err|result]]; [discriminate|].
    case_bool_decide; [|discriminate].
    destruct (completes pkg sb' rest) as [[sb'' outs']|] eqn:Hrest; [|discriminate].
    intros [= <- <-]. simpl. f_equal. by eapply IH.
Qed.

(** The loop on phases that all complete: they are recorded, and the loop
    goes on with the phases that follow. *)
Lemma runPhases_completes pkg pre phase rest w sb1 outs :
  completes pkg (sb w) pre = Some (sb1, outs) →
  ∃ p s,
    runPhases pkg (pre ++ phase :: rest) w
    = runPhases pkg (phase :: rest)
        {| results := recorded outs (results w);
           lastRunPhase := p;
           lastStatus := s;
           lastError := lastError w;
           sb := sb1;
           attempted := (attempted w ++ pre)%list |}.
Proof.
  revert w outs. induction pre as [|first pre IH]; intros w outs.
  - intros [= <- <-]. exists (lastRunPhase w), (lastStatus w).
    rewrite List.app_nil_r. by destruct w.
  - cbn [completes app runPhases].
    destruct (dynamicanalysis.Run _ _) as [sb' [err|result]]; [discriminate|].
    destruct (bool_decide (_ = _)) eqn:Hdone; [|discriminate].
    destruct (completes pkg sb' pre) as [[sb'' outs']|] eqn:Hpre; [|discriminate].
    intros [= <- <-]. apply bool_decide_eq_true in Hdone.
    rewrite bool_decide_eq_false_2 by (by intros []).
    match goal with
    | |- context [runPhases pkg (pre ++ phase :: rest) ?w'] =>
        destruct (IH w' outs' Hpre) as (p & s & ->)
    end.
    exists p, s. cbn [attempted results lastError sb]. by rewrite <- app_assoc.
Qed.

Lemma dom_recorded_FileWrites outs r :
  dom (FileWrites (recorded outs r)) = list_to_set outs.*1 ∪ dom (FileWrites r).
Proof.
  revert r. induction outs as [|[phase result] outs IH]; intros r.
  - simpl. set_solver.
  - rewrite recorded_cons, IH. simpl. rewrite dom_insert_L. set_solver.
Qed.

(** A phase that occurs once among the recorded ones keeps its result. *)
Lemma recorded_lookup outs r phase result :
  NoDup outs.*1 → (phase, result) ∈ outs →
  StraceSummary (recorded outs r) !! phase = Some (dynamicanalysis.resStraceSummary result)
  ∧ FileWrites (recorded outs r) !! phase = Some (dynamicanalysis.resFileWrites result).
Proof.
  induction outs as [|[p res] outs IH] using rev_ind; [by intros _ ?%elem_of_nil|].
  rewrite fmap_app, recorded_snoc. simpl.
  intros [Hnd [Hfresh _]]%NoDup_app [Hin|Hin%list_elem_of_singleton]%elem_of_app.
  - assert (phase ≠ p) as Hne.
    { intros ->. apply (Hfresh p); [|set_solver].
      apply list_elem_of_fmap. by exists (p, result). }
    rewrite !lookup_insert_ne by done. by apply IH.
  - injection Hin as -> ->. by rewrite !lookup_insert_eq.
Qed.

(** ** The claims on [RunDynamicAnalysis] *)

(** C3. When the phases before [P] all complete and the invocation of the
    sandbox for [P] fails, [RunDynamicAnalysis] returns the aggregate of the
    phases before [P] only, [P] as the last phase, the empty status and the
    error; [dynamicanalysis.Run] has been called for the phases up to [P]
    and for no later one.  The aggregate has the phases before [P] as its
    keys, and no entry for [P] unless [P] also occurs before. *)
Theorem RunDynamicAnalysis_infrastructure_error sb0 pkg pre P post sb1 outs sb2 err :
  pkgecosystem.RunPhases (pkgecosystem.Manager pkg) = (pre ++ P :: post)%list →
  completes pkg sb0 pre = Some (sb1, outs) →
  dynamicanalysis.Run sb1 (pkgecosystem.Command pkg P) = (sb2, inl err) →
  RunDynamicAnalysis sb0 pkg
  = ((recorded outs noResults, P, "", Some err),
     {| sandboxAfter := sb2;
        phasesRun := (pre ++ [P])%list;
        logged := [LogDynamicAnalysisError pkg P err] |})
  ∧ outs.*1 = pre
  ∧ dom (StraceSummary (recorded outs noResults)) = list_to_set pre
  ∧ dom (FileWrites (recorded outs noResults)) = list_to_set pre
  ∧ (P ∉ pre →
     StraceSummary (recorded outs noResults) !! P = None
     ∧ FileWrites (recorded outs noResults) !! P = None).
Proof.
  intros Hphases Hpre Hrun.
  pose proof (completes_phases _ _ _ _ _ Hpre) as Houts.
  assert (HdS : dom (StraceSummary (recorded outs noResults)) = list_to_set pre).
  { rewrite dom_recorded, Houts. simpl. set_solver. }
  assert (HdF : dom (FileWrites (recorded outs noResults)) = list_to_set pre).
  { rewrite dom_recorded_FileWrites, Houts. simpl. set_solver. }
  split_and!; try done.
  - unfold RunDynamicAnalysis. rewrite Hphases.
    destruct (runPhases_completes pkg pre P post (startWalk sb0) sb1 outs Hpre)
      as (p & s & ->).
    cbn [runPhases sb]. rewrite Hrun. done.
  - intros Hnew. split; apply not_elem_of_dom; [rewrite HdS | rewrite HdF]; set_solver.
Qed.

(** C4. When the phases before [P] all complete and [P] returns a result
    whose status is not [StatusCompleted], [RunDynamicAnalysis] records the
    syscall summary and the file writes of [P] on top of the aggregate of
    the earlier phases, and returns [P] as the last phase, the status of
    [P] and a nil error; [dynamicanalysis.Run] has been called for the
    phases up to [P] and for no later one.  The keys of the aggregate are
    the phases up to [P], and when no phase is repeated each of them is
    bound to its own result. *)
Theorem RunDynamicAnalysis_not_completed sb0 pkg pre P post sb1 outs sb2 result :
  pkgecosystem.RunPhases (pkgecosystem.Manager pkg) = (pre ++ P :: post)%list →
  completes pkg sb0 pre = Some (sb1, outs) →
  dynamicanalysis.Run sb1 (pkgecosystem.Command pkg P) = (sb2, inr result) →
  dynamicanalysis.Status (dynamicanalysis.resStraceSummary result) ≠ analysis.StatusCompleted →
  let aggregate := record P result (recorded outs noResults) in
  let status := dynamicanalysis.Status (dynamicanalysis.resStraceSummary result) in
  RunDynamicAnalysis sb0 pkg
  = ((aggregate, P, status, None),
     {| sandboxAfter := sb2;
        phasesRun := (pre ++ [P])%list;
        logged := [LogDynamicAnalysisResult pkg P status] |})
  ∧ StraceSummary aggregate !! P = Some (dynamicanalysis.resStraceSummary result)
  ∧ FileWrites aggregate !! P = Some (dynamicanalysis.resFileWrites result)
  ∧ dom (StraceSummary aggregate) = list_to_set (pre ++ [P])
  ∧ dom (FileWrites aggregate) = list_to_set (pre ++ [P])
  ∧ (NoDup (pre ++ [P]) →
     ∀ phase earlier, (phase, earlier) ∈ outs →
       StraceSummary aggregate !! phase = Some (dynamicanalysis.resStraceSummary earlier)
       ∧ FileWrites aggregate !! phase = Some (dynamicanalysis.resFileWrites earlier)).
Proof.
  intros Hphases Hpre Hrun Hstatus aggregate status.
  pose proof (completes_phases _ _ _ _ _ Hpre) as Houts.
  split_and!.
  - unfold RunDynamicAnalysis. rewrite Hphases.
    destruct (runPhases_completes pkg pre P post (startWalk sb0) sb1 outs Hpre)
      as (p & s & ->).
    cbn [runPhases sb]. rewrite Hrun. cbn zeta.
    rewrite bool_decide_eq_true_2 by done. done.
  - apply lookup_insert_eq.
  - apply lookup_insert_eq.
  - unfold aggregate, record. simpl. rewrite dom_insert_L, dom_recorded, Houts. simpl.
    rewrite list_to_set_app_L. set_solver.
  - unfold aggregate, record. simpl. rewrite dom_insert_L, dom_recorded_FileWrites, Houts.
    simpl. rewrite list_to_set_app_L. set_solver.
  - intros [Hnd [Hfresh _]]%NoDup_app phase earlier Hin.
    assert (P ≠ phase) as Hne.
    { intros <-. apply (Hfresh P); [|set_solver].
      rewrite <- Houts. apply list_elem_of_fmap. by exists (P, earlier). }
    unfold aggregate, record. simpl. rewrite !lookup_insert_ne by done.
    apply recorded_lookup; [by rewrite Houts | done].
Qed.

(** C9. The syscall summaries and the file writes that
    [RunDynamicAnalysis] returns have the same phases as keys: a phase has a
    syscall summary if and only if it has a file-write record. *)
Theorem RunDynamicAnalysis_same_phases sb0 pkg :
  let returned := (RunDynamicAnalysis sb0 pkg).1.1.1.1 in
  dom (StraceSummary returned) = dom (FileWrites returned)
  ∧ ∀ phase, is_Some (StraceSummary returned !! phase) ↔ is_Some (FileWrites returned !! phase).
Proof.
  assert (H' : aligned (RunDynamicAnalysis sb0 pkg).1.1.1.1).
  { unfold RunDynamicAnalysis. simpl. by apply runPhases_aligned. }
  simpl. split; [exact H'|].
  intros phase. by rewrite <- !elem_of_dom, H'.
Qed.

(** C10. On a package without run phases, [RunDynamicAnalysis] never calls
    [dynamicanalysis.Run], and returns empty maps, the zero value of the
    run phase, the empty status and a nil error. *)
Theorem RunDynamicAnalysis_no_phases sb0 pkg :
  pkgecosystem.RunPhases (pkgecosystem.Manager pkg) = [] →
  RunDynamicAnalysis sb0 pkg
  = (({| StraceSummary := ∅; FileWrites := ∅ |}, pkgecosystem.RunPhase_zero, "", None),
     {| sandboxAfter := sb0;
        phasesRun := [];
        logged := [LogDynamicAnalysisResult pkg pkgecosystem.RunPhase_zero ""] |}).
Proof. intros Hnone. unfold RunDynamicAnalysis. by rewrite Hnone. Qed.

End worker_properties.

(** * Further properties of [runParser], [parseJS] and [RunExampleParsing] *)

Section parsing_more.
Context `{!token.API, !big.API, !exec.OS, !json.API}.

#[local] Arguments convertElement : simpl never.

Lemma length_nonempty (s : string) : s ≠ "" → (String.length s =? 0)%nat = false.
Proof. destruct s; [done|]. intros _. reflexivity. Qed.

(** The warnings of the loop: one for each record of unrecognised kind. *)
Lemma convertElements_warnings storage r w r' w' :
  convertElements storage (r, w) = Returned (r', w') →
  w' = (w ++ ((λ tag, "parseJS: unrecognised symbol type " +:+ tag)
                <$> unrecognisedTags storage))%list.
Proof.
  revert r w. induction storage as [|element rest IH]; intros r w; simpl.
  - intros [= <- <-]. by rewrite List.app_nil_r.
  - destruct (convertElement element (r, w)) as [[r1 w1]|] eqn:Hstep; simpl; [|discriminate].
    intros Hrest%IH. subst w'. revert Hstep.
    unfold convertElement, newLiteral, unrecognisedTags. simpl.
    destruct (elSymbolType element); simpl.
    + destruct (_ || _); simpl; [by intros [= <- <-]|].
      destruct (assertString _); simpl; [by intros [= <- <-] | discriminate].
    + destruct (assertString _); simpl; [by intros [= <- <-] | discriminate].
    + destruct (assertString _); simpl; [by intros [= <- <-] | discriminate].
    + by intros [= <- <-].
    + by intros [= <- <-].
    + intros [= <- <-]. by rewrite <- app_assoc.
Qed.

(** The three kinds of records that yield an item exclude one another. *)
Lemma filter_kinds_length storage :
  (length (List.filter isIdentifier storage) + length (List.filter isLiteral storage)
   + length (List.filter isComment storage) ≤ length storage)%nat.
Proof.
  induction storage as [|element rest IH]; simpl; [done|].
  destruct (isIdentifier element) eqn:Hi, (isLiteral element) eqn:Hl,
    (isComment element) eqn:Hc; simpl; try lia;
    unfold isIdentifier, isLiteral, isComment in Hi, Hl, Hc;
    destruct (elSymbolType element); discriminate.
Qed.

Lemma filter_keptIdentifier_length storage :
  (length (List.filter keptIdentifier storage) ≤ length (List.filter isIdentifier storage))%nat.
Proof.
  induction storage as [|element rest IH]; simpl; [done|].
  destruct (keptIdentifier element) eqn:Hk, (isIdentifier element) eqn:Hi; simpl; try lia.
  unfold keptIdentifier in Hk. rewrite Hi in Hk. discriminate.
Qed.

(** ** [runParser] *)

(** X1. [runParser] gives no text with an error; when it gives no error, the
    text is the standard output of the parser process, run on the source as
    standard input when there is no file and on no standard input otherwise. *)
Theorem runParser_text parserPath jsFilePath jsSource out err :
  runParser parserPath jsFilePath jsSource = (out, err) →
  (err ≠ None → out = "")
  ∧ (err = None →
     exec.Output (nodeCommand parserPath jsFilePath) (stdinOf jsFilePath jsSource)
     = (out, None)).
Proof.
  unfold runParser, stdinOf, afterOutput.
  destruct (String.length jsFilePath =? 0)%nat.
  - destruct (exec.StdinPipe _); [intros [= <- <-]; by split|].
    destruct (exec.Write _ _); [intros [= <- <-]; by split|].
    destruct (exec.Close _); [intros [= <- <-]; by split|].
    destruct (exec.Output _ _) as [stdout [e|]]; simpl; intros [= <- <-]; by split.
  - destruct (exec.Output _ _) as [stdout [e|]]; simpl; intros [= <- <-]; by split.
Qed.

(** X2. With a file, [runParser] passes the parser and the file to [node] and
    never looks at the source string; without one it passes the parser
    only. *)
Theorem runParser_file_or_source parserPath jsFilePath :
  (jsFilePath ≠ "" →
   exec.Args (nodeCommand parserPath jsFilePath) = [parserPath; jsFilePath]
   ∧ ∀ jsSource jsSource',
       runParser parserPath jsFilePath jsSource = runParser parserPath jsFilePath jsSource')
  ∧ (jsFilePath = "" → exec.Args (nodeCommand parserPath jsFilePath) = [parserPath]).
Proof.
  split.
  - intros Hfile. unfold runParser, nodeCommand.
    pose proof (length_nonempty _ Hfile) as Hlen.
    destruct jsFilePath; [done|]. by rewrite Hlen.
  - by intros ->.
Qed.

(** ** The error paths of [parseJS] *)

(** X3. When the parser process exits with a code other than 33, [parseJS]
    returns the exit error itself, the standard error of the process in
    place of its output, and the zero result: not valid, without content. *)
Theorem parseJS_other_exit parserConfig filePath sourceString code stdout stderr :
  parserExits (ParserPath parserConfig) filePath sourceString code stdout stderr →
  code ≠ 33 →
  parseJS parserConfig filePath sourceString
  = Returned (zeroOutput, stderr, Some (ExitError code stderr), []).
Proof.
  intros Hexit Hcode. unfold parseJS.
  rewrite (runParser_exits _ _ _ _ _ _ Hexit). simpl.
  destruct (Z.eqb_spec code syntaxErrorExitCode) as [->|_]; [by destruct Hcode | done].
Qed.

(** X4. When the source is piped and the pipe fails, [parseJS] returns no
    text, the zero result, and the error [fmt.Errorf] makes for the call that
    failed: from the cause with the verb [%v] when the pipe cannot be
    created, with the verb [%w] when it cannot be written or closed.  That
    error is not an exit error, so the failure is never read as a syntax
    error. *)
Theorem parseJS_pipe_failure parserConfig sourceString cause :
  let cmd := nodeCommand (ParserPath parserConfig) "" in
  (exec.StdinPipe cmd = Some cause →
   parseJS parserConfig "" sourceString
   = Returned (zeroOutput, "",
               Some (Errorf "runParser failed to create pipe: %v" cause), []))
  ∧ (exec.StdinPipe cmd = None → exec.Write cmd sourceString = Some cause →
     parseJS parserConfig "" sourceString
     = Returned (zeroOutput, "",
                 Some (Errorf "runParser failed to write source string to pipe: %w" cause),
                 []))
  ∧ (exec.StdinPipe cmd = None → exec.Write cmd sourceString = None →
     exec.Close cmd = Some cause →
     parseJS parserConfig "" sourceString
     = Returned (zeroOutput, "",
                 Some (Errorf "runParser failed to close pipe: %w" cause), [])).
Proof.
  unfold parseJS, runParser. simpl. split_and!.
  - by intros ->.
  - by intros -> ->.
  - by intros -> -> ->.
Qed.

(** X5. When the parser process succeeds and its output does not decode,
    [parseJS] returns the decoding error, the output as it is and the zero
    result. *)
Theorem parseJS_decode_error parserConfig filePath sourceString stdout err :
  runParser (ParserPath parserConfig) filePath sourceString = (stdout, None) →
  json.Decode stdout = inl err →
  parseJS parserConfig filePath sourceString = Returned (zeroOutput, stdout, Some err, []).
Proof. intros Hrun Hdecode. unfold parseJS. by rewrite Hrun, Hdecode. Qed.

(** X6. Whatever [parseJS] returns: with an error the result is the zero result
    and nothing was logged; a result that is not valid has no identifier,
    literal or comment; a valid result comes with a nil error. *)
Theorem parseJS_error_or_result parserConfig filePath sourceString result out err warnings :
  parseJS parserConfig filePath sourceString = Returned (result, out, err, warnings) →
  (err ≠ None → result = zeroOutput ∧ warnings = [])
  ∧ (ValidInput result = false →
     Identifiers result = [] ∧ Literals result = [] ∧ Comments result = [])
  ∧ (ValidInput result = true → err = None).
Proof.
  unfold parseJS.
  destruct (runParser _ _ _) as [text [e|]].
  - destruct (asExitError e) as [[code stderr]|].
    + destruct (code =? syntaxErrorExitCode); intros [= <- <- <- <-]; by split_and!.
    + intros [= <- <- <- <-]. by split_and!.
  - destruct (json.Decode text) as [e|storage].
    + intros [= <- <- <- <-]. by split_and!.
    + destruct (convertElements storage _) as [[r w]|] eqn:Hloop; simpl; [|discriminate].
      intros [= <- <- <- <-].
      apply convertElements_Returned in Hloop as (Hv & _). simpl in Hv.
      split_and!; [done | | done]. intros Hinvalid. congruence.
Qed.

(** ** What [parseJS] decodes *)

(** X7. In a returned result, the comments are the comment records, in order,
    each with the subtype, the text and the position of its record. *)
Theorem parseJS_comments parserConfig filePath sourceString stdout storage
    result out err warnings :
  parserGives (ParserPath parserConfig) filePath sourceString stdout storage →
  parseJS parserConfig filePath sourceString = Returned (result, out, err, warnings) →
  Forall2
    (λ element comment,
       cmType comment = elSymbolSubtype element
       ∧ elData element = AString (cmData comment)
       ∧ cmPos comment = elPos element)
    (List.filter isComment storage) (Comments result).
Proof.
  intros Hgives Hret.
  by destruct (parseJS_Returned _ _ _ _ _ _ _ _ _ Hgives Hret) as (_ & _ & _ & _ & _ & Hc).
Qed.

(** X8. In a returned result, each literal has the subtype, the position and
    the [raw] text of its record.  When the record is a Numeric one whose
    data is a text that [SetString] reads in base 0, the value is the integer
    read and the Go type is [big.Int]; in every other case (another
    subtype, data that is not text, or text that [SetString] does not read)
    the value is the data of the record and the Go type is the type of that
    data. *)
Theorem parseJS_literal_fields parserConfig filePath sourceString stdout storage
    result out err warnings :
  parserGives (ParserPath parserConfig) filePath sourceString stdout storage →
  parseJS parserConfig filePath sourceString = Returned (result, out, err, warnings) →
  Forall2
    (λ element literal,
       litType literal = elSymbolSubtype element
       ∧ litPos literal = elPos element
       ∧ elExtra element !! "raw" = Some (AString (litRawValue literal))
       ∧ (∀ text n,
            elSymbolSubtype element = "Numeric" → elData element = AString text →
            big.SetString text 0 = Some n →
            litValue literal = ABigInt n ∧ litGoType literal = "big.Int")
       ∧ (elSymbolSubtype element ≠ "Numeric"
          ∨ (∀ text, elData element ≠ AString text)
          ∨ (∃ text, elData element = AString text ∧ big.SetString text 0 = None) →
          litValue literal = elData element
          ∧ litGoType literal = typeName (elData element)))
    (List.filter isLiteral storage) (Literals result).
Proof.
  intros Hgives Hret.
  destruct (parseJS_Returned _ _ _ _ _ _ _ _ _ Hgives Hret) as (_ & _ & _ & _ & Hl & _).
  eapply Forall2_impl; [exact Hl|]. clear.
  intros element literal (raw & Hraw & ->).
  assert (Hlook : elExtra element !! "raw" = Some (AString raw)).
  { unfold index in Hraw. destruct (elExtra element !! "raw"); simpl in Hraw; congruence. }
  assert (Hkeep : ∀ l, litType (checkBigInt l) = litType l
                       ∧ litPos (checkBigInt l) = litPos l
                       ∧ litRawValue (checkBigInt l) = litRawValue l).
  { intros l. unfold checkBigInt.
    destruct (_ && _); [|done]. destruct (asString _); [|done]. by destruct (big.SetString _ _). }
  destruct (Hkeep {| litType := elSymbolSubtype element;
                     litGoType := typeName (elData element);
                     litValue := elData element;
                     litRawValue := raw;
                     litInArray := eqTrue (index (elExtra element) "array");
                     litPos := elPos element |}) as (Ht & Hp & Hr).
  rewrite Ht, Hp, Hr. simpl. split_and!; try done.
  - intros text n Hnum Hdata Hn. unfold checkBigInt. simpl.
    rewrite Hnum, Hdata. simpl. by rewrite Hn.
  - intros Hother. unfold checkBigInt. simpl.
    destruct (String.eqb_spec (elSymbolSubtype element) "Numeric") as [Hnum|Hnum]; simpl;
      [|done].
    destruct (elData element) as [| | |text| | |] eqn:Hdata; simpl; try done.
    destruct (big.SetString text 0) as [n|] eqn:Hn; simpl; [|done].
    destruct Hother as [Hne | [Hno | (text' & [= <-] & Hnone)]];
      [by destruct Hne | by destruct (Hno text) | congruence].
Qed.

(** X9. When [parseJS] returns, the warnings it has logged are one for
    each record of unrecognised kind, in order, naming its kind; records of
    kind [Info] and [Error] are passed over in silence.  When a record makes
    the loop panic, the records before it being well shaped, the loop has
    by then logged the warnings of the records before it, and no more; the
    panic of [parseJS] itself carries no log. *)
Theorem parseJS_warnings parserConfig filePath sourceString stdout storage :
  parserGives (ParserPath parserConfig) filePath sourceString stdout storage →
  let message := λ tag, "parseJS: unrecognised symbol type " +:+ tag in
  (∀ result out err warnings,
     parseJS parserConfig filePath sourceString = Returned (result, out, err, warnings) →
     warnings = message <$> unrecognisedTags storage)
  ∧ (∀ before element after,
       storage = (before ++ element :: after)%list →
       forallb wellShaped before = true → wellShaped element = false →
       ∃ result,
         convertElements before
           ({| ValidInput := true; Identifiers := []; Literals := []; Comments := [] |}, [])
         = Returned (result, message <$> unrecognisedTags before)
         ∧ panics (convertElement element (result, message <$> unrecognisedTags before))
         ∧ panics (parseJS parserConfig filePath sourceString)).
Proof.
  intros Hgives message. split.
  - intros result out err warnings. rewrite (parseJS_decoded _ _ _ _ _ Hgives).
    destruct (convertElements storage _) as [[r w]|] eqn:Hloop; simpl; [|discriminate].
    intros [= <- <- <- <-]. by apply convertElements_warnings in Hloop.
  - intros before element after -> Hbefore Helement.
    destruct (convertElements_returns before
      ({| ValidInput := true; Identifiers := []; Literals := []; Comments := [] |}, []) Hbefore)
      as [[r w] Hloop].
    pose proof (convertElements_warnings _ _ _ _ _ Hloop) as Hw. simpl in Hw. subst w.
    exists r. split_and!; [done | by apply convertElement_panics |].
    apply (parseJS_panics _ _ _ _ _ Hgives).
    rewrite forallb_app. simpl. by rewrite Helement, andb_false_r.
Qed.

(** X10. In a returned result, every literal record has its literal and every
    comment record its comment; there are no more identifiers than
    identifier records, and no more items in all than records. *)
Theorem parseJS_counts parserConfig filePath sourceString stdout storage
    result out err warnings :
  parserGives (ParserPath parserConfig) filePath sourceString stdout storage →
  parseJS parserConfig filePath sourceString = Returned (result, out, err, warnings) →
  length (Literals result) = length (List.filter isLiteral storage)
  ∧ length (Comments result) = length (List.filter isComment storage)
  ∧ (length (Identifiers result) ≤ length (List.filter isIdentifier storage))%nat
  ∧ (length (Identifiers result) + length (Literals result) + length (Comments result)
     ≤ length storage)%nat.
Proof.
  intros Hgives Hret.
  destruct (parseJS_Returned _ _ _ _ _ _ _ _ _ Hgives Hret)
    as (_ & _ & _ & Hi%Forall2_length & Hl%Forall2_length & Hc%Forall2_length).
  pose proof (filter_kinds_length storage).
  pose proof (filter_keptIdentifier_length storage).
  split_and!; lia.
Qed.

(** ** [RunExampleParsing] *)

Lemma printedItems_app out out' :
  printedItems (out ++ out')
  = ((printedItems out).1.1 ++ (printedItems out').1.1,
     (printedItems out).1.2 ++ (printedItems out').1.2,
     (printedItems out).2 ++ (printedItems out').2)%list.
Proof. unfold printedItems. simpl. by rewrite !omap_app. Qed.

Lemma printedItems_identifiers ids : printedItems (PrintfIdentifier <$> ids) = (ids, [], []).
Proof.
  unfold printedItems.
  f_equal; [f_equal|]; induction ids as [|i ids IH]; csimpl; congruence.
Qed.

Lemma printedItems_literals lits : printedItems (PrintfLiteral <$> lits) = ([], lits, []).
Proof.
  unfold printedItems.
  f_equal; [f_equal|]; induction lits as [|l lits IH]; csimpl; congruence.
Qed.

Lemma printedItems_comments cms : printedItems (PrintfComment <$> cms) = ([], [], cms).
Proof.
  unfold printedItems.
  f_equal; [f_equal|]; induction cms as [|c cms IH]; csimpl; congruence.
Qed.

(** X11. When the parser process exits with the syntax-error code 33,
    [RunExampleParsing] prints an empty raw output, then that parsing
    completed without errors, then the three section titles with no item
    under them. *)
Theorem RunExampleParsing_syntax_error config jsFilePath jsSourceString stdout stderr :
  parserExits (ParserPath config) jsFilePath jsSourceString 33 stdout stderr →
  RunExampleParsing config jsFilePath jsSourceString
  = Returned
      ([println [newline +:+ "Raw JSON:" +:+ newline; ""];
        Println "Completed without errors";
        println []; println ["== Parsed Identifiers =="];
        println []; println ["== Parsed Literals =="];
        println []; println ["== Parsed Comments =="]], []).
Proof.
  intros Hexit. unfold RunExampleParsing, parseJS.
  by rewrite (runParser_exits _ _ _ _ _ _ Hexit).
Qed.

(** X12. When [parseJS] returns an error, [RunExampleParsing] prints the raw
    output and then the error, prints the standard error of the process
    exactly when the error is an exit error, and prints no item. *)
Theorem RunExampleParsing_error config jsFilePath jsSourceString result text err warnings :
  parseJS config jsFilePath jsSourceString = Returned (result, text, Some err, warnings) →
  ∃ out,
    RunExampleParsing config jsFilePath jsSourceString = Returned (out, warnings)
    ∧ out !! 0%nat = Some (println [newline +:+ "Raw JSON:" +:+ newline; text])
    ∧ out !! 1%nat = Some (PrintfError err)
    ∧ (∀ stderr, Println stderr ∈ out ↔ ∃ code, err = ExitError code stderr)
    ∧ printedItems out = ([], [], []).
Proof.
  intros Hparse. unfold RunExampleParsing. rewrite Hparse. simpl.
  destruct err as [code stderr| |]; simpl; eexists; (split; [reflexivity|]);
    split_and!; try done.
  - intros s. rewrite !elem_of_cons, elem_of_nil. split.
    + intros [|[|[|[[= ->]|[]]]]]; try discriminate. by exists code.
    + intros [c [= _ ->]]. auto.
  - intros s. rewrite !elem_of_cons, elem_of_nil. split.
    + intros [|[|[]]]; discriminate.
    + intros [c [=]].
  - intros s. rewrite !elem_of_cons, elem_of_nil. split.
    + intros [|[|[]]]; discriminate.
    + intros [c [=]].
Qed.

(** X13. When [parseJS] returns a result without error, [RunExampleParsing]
    prints the raw output, the completion line, and the identifiers, the
    literals and the comments of the result, each sequence in its order. *)
Theorem RunExampleParsing_prints config jsFilePath jsSourceString result text warnings :
  parseJS config jsFilePath jsSourceString = Returned (result, text, None, warnings) →
  ∃ out,
    RunExampleParsing config jsFilePath jsSourceString = Returned (out, warnings)
    ∧ out !! 0%nat = Some (println [newline +:+ "Raw JSON:" +:+ newline; text])
    ∧ out !! 1%nat = Some (Println "Completed without errors")
    ∧ printedItems out = (Identifiers result, Literals result, Comments result).
Proof.
  intros Hparse. unfold RunExampleParsing. rewrite Hparse. simpl.
  eexists. split; [reflexivity|]. split_and!; try done.
  change (?a :: ?b :: ?c :: ?d :: ?rest) with ([a; b; c; d] ++ rest)%list.
  rewrite !printedItems_app, printedItems_identifiers, printedItems_literals,
    printedItems_comments.
  simpl. by rewrite !List.app_nil_r.
Qed.

End parsing_more.

(** * Further properties of [RunDynamicAnalysis] *)

Section worker_more.
Context `{!analysis.API, !pkgecosystem.API, !sandbox.API,
          !dynamicanalysis.Types, !dynamicanalysis.API}.

Lemma completes_statuses pkg sb0 phases sb1 outs :
  completes pkg sb0 phases = Some (sb1, outs) →
  Forall (λ out, dynamicanalysis.Status (dynamicanalysis.resStraceSummary out.2)
                 = analysis.StatusCompleted) outs.
Proof.
  revert sb0 sb1 outs. induction phases as [|phase rest IH]; intros sb0 sb1 outs; simpl.
  - intros [= <- <-]. constructor.
  - destruct (dynamicanalysis.Run _ _) as [sb' [err|result]]; [discriminate|].
    case_bool_decide as Hdone; [|discriminate].
    destruct (completes pkg sb' rest) as [[sb'' outs']|] eqn:Hrest; [|discriminate].
    intros [= <- <-]. constructor; [done | by eapply IH].
Qed.

(** The loop on phases that all complete. *)
Lemma runPhases_all_complete pkg phases w sb1 outs :
  completes pkg (sb w) phases = Some (sb1, outs) →
  runPhases pkg phases w
  = {| results := recorded outs (results w);
       lastRunPhase := default (lastRunPhase w) (last phases);
       lastStatus := match phases with [] => lastStatus w | _ => analysis.StatusCompleted end;
       lastError := lastError w;
       sb := sb1;
       attempted := (attempted w ++ phases)%list |}.
Proof.
  revert w outs. induction phases as [|phase rest IH]; intros w outs.
  - intros [= <- <-]. rewrite List.app_nil_r. by destruct w.
  - cbn [completes runPhases].
    destruct (dynamicanalysis.Run _ _) as [sb' [err|result]]; [discriminate|].
    destruct (bool_decide (_ = _)) eqn:Hdone; [|discriminate].
    destruct (completes pkg sb' rest) as [[sb'' outs']|] eqn:Hrest; [|discriminate].
    intros [= <- <-]. apply bool_decide_eq_true in Hdone.
    rewrite bool_decide_eq_false_2 by (by intros []).
    match goal with
    | |- runPhases pkg rest ?w' = _ => rewrite (IH w' outs' Hrest)
    end.
    cbn [attempted results lastError sb lastRunPhase lastStatus].
    rewrite last_cons, <- app_assoc. simpl.
    f_equal; [by destruct (last rest) | by destruct rest].
Qed.

(** Run one after the other, the phases all complete, or a first one makes
    the sandbox fail, or a first one returns without having completed. *)
Lemma completes_cases pkg sb0 phases :
  (∃ sb1 outs, completes pkg sb0 phases = Some (sb1, outs))
  ∨ (∃ pre P post sb1 outs sb2,
       phases = (pre ++ P :: post)%list
       ∧ completes pkg sb0 pre = Some (sb1, outs)
       ∧ ((∃ err, dynamicanalysis.Run sb1 (pkgecosystem.Command pkg P) = (sb2, inl err))
          ∨ (∃ result,
               dynamicanalysis.Run sb1 (pkgecosystem.Command pkg P) = (sb2, inr result)
               ∧ dynamicanalysis.Status (dynamicanalysis.resStraceSummary result)
                 ≠ analysis.StatusCompleted))).
Proof.
  revert sb0. induction phases as [|phase rest IH]; intros sb0.
  - left. by exists sb0, [].
  - destruct (dynamicanalysis.Run sb0 (pkgecosystem.Command pkg phase))
      as [sb' [err|result]] eqn:Hrun.
    + right. exists [], phase, rest, sb0, [], sb'. split_and!; [done..|]. left. by exists err.
    + destruct (decide (dynamicanalysis.Status (dynamicanalysis.resStraceSummary result)
                        = analysis.StatusCompleted)) as [Hdone|Hnot].
      * destruct (IH sb') as [(sb1 & outs & Hall)
                             |(pre & P & post & sb1 & outs & sb2 & -> & Hpre & HP)].
        -- left. exists sb1, ((phase, result) :: outs). simpl.
           by rewrite Hrun, bool_decide_eq_true_2, Hall.
        -- right. exists (phase :: pre), P, post, sb1, ((phase, result) :: outs), sb2.
           split_and!; [done | | done]. simpl.
           by rewrite Hrun, bool_decide_eq_true_2, Hpre.
      * right. exists [], phase, rest, sb0, [], sb'. split_and!; [done..|].
        right. by exists result.
Qed.

(** The three ways [RunDynamicAnalysis] ends. *)
Lemma RunDynamicAnalysis_cases sb0 pkg :
  let phases := pkgecosystem.RunPhases (pkgecosystem.Manager pkg) in
  (∃ sb1 outs,
     completes pkg sb0 phases = Some (sb1, outs)
     ∧ RunDynamicAnalysis sb0 pkg
       = ((recorded outs noResults,
           default pkgecosystem.RunPhase_zero (last phases),
           match phases with [] => "" | _ => analysis.StatusCompleted end,
           None),
          {| sandboxAfter := sb1; phasesRun := phases;
             logged := [LogDynamicAnalysisResult pkg
                          (default pkgecosystem.RunPhase_zero (last phases))
                          match phases with [] => "" | _ => analysis.StatusCompleted end] |}))
  ∨ (∃ pre P post sb1 outs sb2 err,
       phases = (pre ++ P :: post)%list
       ∧ completes pkg sb0 pre = Some (sb1, outs)
       ∧ RunDynamicAnalysis sb0 pkg
         = ((recorded outs noResults, P, "", Some err),
            {| sandboxAfter := sb2; phasesRun := (pre ++ [P])%list;
               logged := [LogDynamicAnalysisError pkg P err] |}))
  ∨ (∃ pre P post sb1 outs sb2 result,
       phases = (pre ++ P :: post)%list
       ∧ completes pkg sb0 pre = Some (sb1, outs)
       ∧ dynamicanalysis.Status (dynamicanalysis.resStraceSummary result)
         ≠ analysis.StatusCompleted
       ∧ RunDynamicAnalysis sb0 pkg
         = ((record P result (recorded outs noResults), P,
             dynamicanalysis.Status (dynamicanalysis.resStraceSummary result), None),
            {| sandboxAfter := sb2; phasesRun := (pre ++ [P])%list;
               logged := [LogDynamicAnalysisResult pkg P
                            (dynamicanalysis.Status
                               (dynamicanalysis.resStraceSummary result))] |})).
Proof.
  intros phases. unfold RunDynamicAnalysis. fold phases.
  destruct (completes_cases pkg sb0 phases)
    as [(sb1 & outs & Hall)
       |(pre & P & post & sb1 & outs & sb2 & Hsplit & Hpre & [[err Hrun]|(result & Hrun & Hnot)])].
  - left. exists sb1, outs. split; [done|].
    by rewrite (runPhases_all_complete pkg phases (startWalk sb0) sb1 outs Hall).
  - right. left. exists pre, P, post, sb1, outs, sb2, err. split_and!; [done..|].
    rewrite Hsplit.
    destruct (runPhases_completes pkg pre P post (startWalk sb0) sb1 outs Hpre)
      as (p & s & ->).
    cbn [runPhases sb]. by rewrite Hrun.
  - right. right. exists pre, P, post, sb1, outs, sb2, result. split_and!; [done..|].
    rewrite Hsplit.
    destruct (runPhases_completes pkg pre P post (startWalk sb0) sb1 outs Hpre)
      as (p & s & ->).
    cbn [runPhases sb]. rewrite Hrun. cbn zeta.
    by rewrite bool_decide_eq_true_2.
Qed.

(** A recorded summary is the one of a recorded phase, or was there before. *)
Lemma recorded_lookup_inv outs r phase summary :
  StraceSummary (recorded outs r) !! phase = Some summary →
  (∃ result, (phase, result) ∈ outs ∧ summary = dynamicanalysis.resStraceSummary result)
  ∨ StraceSummary r !! phase = Some summary.
Proof.
  revert r. induction outs as [|[p res] outs IH]; intros r; [by right|].
  rewrite recorded_cons. intros [(result & Hin & ->)|Hbase]%IH.
  - left. exists result. split; [by right | done].
  - simpl in Hbase. destruct (decide (p = phase)) as [->|Hne].
    + rewrite lookup_insert_eq in Hbase. injection Hbase as <-.
      left. exists res. split; [by left | done].
    + rewrite lookup_insert_ne in Hbase by done. by right.
Qed.

(** X14. When every phase completes, [RunDynamicAnalysis] has called
    [dynamicanalysis.Run] for all of them in order and recorded them all; it
    returns the last phase of the package, [StatusCompleted] and a nil
    error. *)
Theorem RunDynamicAnalysis_all_complete sb0 pkg first rest sb1 outs :
  pkgecosystem.RunPhases (pkgecosystem.Manager pkg) = first :: rest →
  completes pkg sb0 (first :: rest) = Some (sb1, outs) →
  RunDynamicAnalysis sb0 pkg
  = ((recorded outs noResults, default first (last rest), analysis.StatusCompleted, None),
     {| sandboxAfter := sb1;
        phasesRun := first :: rest;
        logged := [LogDynamicAnalysisResult pkg (default first (last rest))
                     analysis.StatusCompleted] |})
  ∧ dom (StraceSummary (recorded outs noResults)) = list_to_set (first :: rest)
  ∧ dom (FileWrites (recorded outs noResults)) = list_to_set (first :: rest).
Proof.
  intros Hphases Hall.
  pose proof (completes_phases _ _ _ _ _ Hall) as Houts.
  split_and!.
  - unfold RunDynamicAnalysis. rewrite Hphases.
    rewrite (runPhases_all_complete pkg (first :: rest) (startWalk sb0) sb1 outs Hall).
    cbn [results lastRunPhase lastStatus lastError sb attempted startWalk app].
    assert (Hlast : default pkgecosystem.RunPhase_zero (last (first :: rest))
                    = default first (last rest)).
    { rewrite last_cons. by destruct (last rest). }
    by rewrite Hlast.
  - rewrite dom_recorded, Houts. simpl. set_solver.
  - rewrite dom_recorded_FileWrites, Houts. simpl. set_solver.
Qed.

(** X15. Whatever the sandbox does, the phases [RunDynamicAnalysis] has called
    [dynamicanalysis.Run] for are the first phases of the package, in order,
    at least one if there is any; the phase it returns is the last of them
    (the zero phase if there is none); and it logs once: the error if it
    returns one, the returned status otherwise, for the returned phase. *)
Theorem RunDynamicAnalysis_phases_run sb0 pkg results phase status err after :
  RunDynamicAnalysis sb0 pkg = ((results, phase, status, err), after) →
  phasesRun after `prefix_of` pkgecosystem.RunPhases (pkgecosystem.Manager pkg)
  ∧ (pkgecosystem.RunPhases (pkgecosystem.Manager pkg) ≠ [] → phasesRun after ≠ [])
  ∧ phase = default pkgecosystem.RunPhase_zero (last (phasesRun after))
  ∧ logged after
    = [match err with
       | Some e => LogDynamicAnalysisError pkg phase e
       | None => LogDynamicAnalysisResult pkg phase status
       end].
Proof.
  destruct (RunDynamicAnalysis_cases sb0 pkg)
    as [(sb1 & outs & Hall & ->)
       |[(pre & P & post & sb1 & outs & sb2 & e & -> & Hpre & ->)
        |(pre & P & post & sb1 & outs & sb2 & result & -> & Hpre & Hnot & ->)]];
    intros [= <- <- <- <- <-]; simpl; split_and!; try done.
  - exists post. by rewrite <- app_assoc.
  - intros _. by destruct pre.
  - by rewrite last_snoc.
  - exists post. by rewrite <- app_assoc.
  - intros _. by destruct pre.
  - by rewrite last_snoc.
Qed.

(** X16. The note of the documentation: when the error is not nil, neither map
    has an entry for the returned phase, provided the package does not
    repeat a phase; the returned status is empty. *)
Theorem RunDynamicAnalysis_error_unrecorded sb0 pkg results phase status e after :
  NoDup (pkgecosystem.RunPhases (pkgecosystem.Manager pkg)) →
  RunDynamicAnalysis sb0 pkg = ((results, phase, status, Some e), after) →
  StraceSummary results !! phase = None
  ∧ FileWrites results !! phase = None
  ∧ status = "".
Proof.
  intros Hnd.
  destruct (RunDynamicAnalysis_cases sb0 pkg)
    as [(sb1 & outs & Hall & ->)
       |[(pre & P & post & sb1 & outs & sb2 & e' & Hsplit & Hpre & ->)
        |(pre & P & post & sb1 & outs & sb2 & result & Hsplit & Hpre & Hnot & ->)]];
    intros [= <- <- <- <- <-].
  rewrite Hsplit in Hnd. apply NoDup_app in Hnd as (_ & Hfresh & _).
  assert (P ∉ pre) as HP by (intros Hin; apply (Hfresh P Hin); by left).
  pose proof (completes_phases _ _ _ _ _ Hpre) as Houts.
  split_and!; [| |done]; apply not_elem_of_dom.
  - rewrite dom_recorded, Houts. simpl. set_solver.
  - rewrite dom_recorded_FileWrites, Houts. simpl. set_solver.
Qed.

(** X17. When the error is nil and the package has a phase, both maps have an
    entry for the returned phase, and the returned status is the status of
    its syscall summary: also when the phase did not complete. *)
Theorem RunDynamicAnalysis_last_recorded sb0 pkg results phase status after :
  pkgecosystem.RunPhases (pkgecosystem.Manager pkg) ≠ [] →
  RunDynamicAnalysis sb0 pkg = ((results, phase, status, None), after) →
  (∃ summary, StraceSummary results !! phase = Some summary
              ∧ status = dynamicanalysis.Status summary)
  ∧ is_Some (FileWrites results !! phase).
Proof.
  intros Hsome.
  destruct (RunDynamicAnalysis_cases sb0 pkg)
    as [(sb1 & outs & Hall & ->)
       |[(pre & P & post & sb1 & outs & sb2 & e' & Hsplit & Hpre & ->)
        |(pre & P & post & sb1 & outs & sb2 & result & Hsplit & Hpre & Hnot & ->)]];
    intros [= <- <- <- <-].
  - pose proof (completes_phases _ _ _ _ _ Hall) as Houts.
    pose proof (completes_statuses _ _ _ _ _ Hall) as Hdone.
    destruct outs as [|out outs _] using rev_ind.
    { simpl in Houts. by destruct Hsome. }
    destruct out as [p res]. rewrite fmap_app in Houts. simpl in Houts.
    rewrite <- Houts, last_snoc, recorded_snoc. simpl.
    apply Forall_app in Hdone as [_ Hres]. apply Forall_inv in Hres. simpl in Hres.
    rewrite !lookup_insert_eq. split; [|done].
    eexists. split; [done|].
    destruct (outs.*1 ++ [p])%list eqn:Hl; [by destruct (outs.*1) | congruence].
  - simpl. rewrite !lookup_insert_eq. split; [|done]. by eexists.
Qed.

(** X18. Every phase with a syscall summary other than the returned phase has
    completed: a status other than [StatusCompleted] is only ever recorded
    for the returned phase. *)
Theorem RunDynamicAnalysis_earlier_completed sb0 pkg results phase status err after
    earlier summary :
  RunDynamicAnalysis sb0 pkg = ((results, phase, status, err), after) →
  StraceSummary results !! earlier = Some summary →
  earlier ≠ phase →
  dynamicanalysis.Status summary = analysis.StatusCompleted.
Proof.
  assert (Hfrom : ∀ sb0' phases sb1 outs,
            completes pkg sb0' phases = Some (sb1, outs) →
            StraceSummary (recorded outs noResults) !! earlier = Some summary →
            dynamicanalysis.Status summary = analysis.StatusCompleted).
  { intros sb0' phases sb1 outs Hc [(result & Hin & ->)|Hbase]%recorded_lookup_inv;
      [|simpl in Hbase; by rewrite lookup_empty in Hbase].
    pose proof (completes_statuses _ _ _ _ _ Hc) as Hdone.
    rewrite Forall_forall in Hdone. apply (Hdone _ Hin). }
  destruct (RunDynamicAnalysis_cases sb0 pkg)
    as [(sb1 & outs & Hall & ->)
       |[(pre & P & post & sb1 & outs & sb2 & e' & Hsplit & Hpre & ->)
        |(pre & P & post & sb1 & outs & sb2 & result & Hsplit & Hpre & Hnot & ->)]];
    intros [= <- <- <- <- <-] Hlook Hne; [by eapply Hfrom..|].
  simpl in Hlook. rewrite lookup_insert_ne in Hlook by done. by eapply Hfrom.
Qed.

(** X19. When [RunDynamicAnalysis] returns [StatusCompleted] and a nil error, it
    has run every phase of the package: a walk that stops early returns an
    error or another status. *)
Theorem RunDynamicAnalysis_completed_all_run sb0 pkg results phase err after :
  RunDynamicAnalysis sb0 pkg = ((results, phase, analysis.StatusCompleted, err), after) →
  err = None →
  phasesRun after = pkgecosystem.RunPhases (pkgecosystem.Manager pkg)
  ∧ dom (StraceSummary results)
    = list_to_set (pkgecosystem.RunPhases (pkgecosystem.Manager pkg)).
Proof.
  destruct (RunDynamicAnalysis_cases sb0 pkg)
    as [(sb1 & outs & Hall & ->)
       |[(pre & P & post & sb1 & outs & sb2 & e' & Hsplit & Hpre & ->)
        |(pre & P & post & sb1 & outs & sb2 & result & Hsplit & Hpre & Hnot & ->)]].
  - intros [= <- <- Hstatus <- <-] _. split; [done|].
    rewrite dom_recorded, (completes_phases _ _ _ _ _ Hall). simpl. set_solver.
  - intros [= _ _ _ <- _] [=].
  - intros [= _ _ Hstatus _ _] _. by destruct Hnot.
Qed.

(** X20. The phases with an entry in the returned maps are the phases
    [dynamicanalysis.Run] was called for, without the last one when an
    error is returned. *)
Theorem RunDynamicAnalysis_keys sb0 pkg results phase status err after :
  RunDynamicAnalysis sb0 pkg = ((results, phase, status, err), after) →
  match err with
  | None => dom (StraceSummary results) = list_to_set (phasesRun after)
  | Some _ =>
      ∃ before, phasesRun after = (before ++ [phase])%list
                ∧ dom (StraceSummary results) = list_to_set before
  end.
Proof.
  destruct (RunDynamicAnalysis_cases sb0 pkg)
    as [(sb1 & outs & Hall & ->)
       |[(pre & P & post & sb1 & outs & sb2 & e' & Hsplit & Hpre & ->)
        |(pre & P & post & sb1 & outs & sb2 & result & Hsplit & Hpre & Hnot & ->)]];
    intros [= <- <- <- <- <-]; simpl.
  - rewrite dom_recorded, (completes_phases _ _ _ _ _ Hall). simpl. set_solver.
  - exists pre. split; [done|].
    rewrite dom_recorded, (completes_phases _ _ _ _ _ Hpre). simpl. set_solver.
  - rewrite dom_insert_L, dom_recorded, (completes_phases _ _ _ _ _ Hpre). simpl.
    rewrite list_to_set_app_L. set_solver.
Qed.

End worker_more.

(** * The definitions run on the sample collaborators *)

#[local] Existing Instance sample.tokens.
#[local] Existing Instance sample.bigs.
#[local] Existing Instance sample.statuses.
#[local] Existing Instance sample.ecosystem.
#[local] Existing Instance sample.sandboxes.
#[local] Existing Instance sample.summaries.
#[local] Existing Instance sample.runner.

(** [parseJS] on the sample configuration, with the parser process writing
    [stdout] and ending with [err], and the decoder reading [storage]. *)
#[local] Abbreviation parseSample stdout err storage :=
  (@parseJS sample.tokens sample.bigs (sample.scripted stdout err) (sample.decoder storage)
     sample.config "a.js" "").

(** C1. A record whose payload has the wrong shape is to become a decode
    error of that record, the batch going on.  On a batch of three records
    whose second is an identifier with a number as data, the code does
    otherwise: the unchecked assertion on the data panics, and [parseJS]
    returns neither a result nor an error, although the first and the third
    record are well shaped and are decoded when the second is left out. *)
Lemma parseJS_identifier_number_crashes :
  sample.malformed !! 1%nat
  = Some (sample.record_ Identifier "Function" (AFloat64 1%float) [])
  ∧ wellShaped (sample.record_ Identifier "Function" (AFloat64 1%float) []) = false
  ∧ parseSample "[]" None sample.malformed
    = Panicked (InterfaceConversion "float64" "string")
  ∧ ¬ returns (parseSample "[]" None sample.malformed)
  ∧ ∃ result,
      parseSample "[]" None (delete 1%nat sample.malformed)
      = Returned (result, "[]", None, [])
      ∧ cmData <$> Comments result = ["fine"]
      ∧ idName <$> Identifiers result = ["v"].
Proof.
  split_and!; [reflexivity | reflexivity | reflexivity | |].
  - intros [a Ha]. vm_compute in Ha. discriminate.
  - eexists. split_and!; reflexivity.
Qed.

(** [parseJS_well_shaped] on the sample identifiers. *)
Lemma parseJS_well_shaped_witness :
  ∃ result warnings,
    parseSample "[]" None sample.identifiers = Returned (result, "[]", None, warnings)
    ∧ ValidInput result = true
    ∧ Forall2 decodesIdentifier (List.filter keptIdentifier sample.identifiers)
        (Identifiers result)
    ∧ Forall2 decodesLiteral (List.filter isLiteral sample.identifiers) (Literals result)
    ∧ Forall2 decodesComment (List.filter isComment sample.identifiers) (Comments result).
Proof.
  apply (@parseJS_well_shaped sample.tokens sample.bigs (sample.scripted "[]" None)
           (sample.decoder sample.identifiers) sample.config "a.js" "" "[]"
           sample.identifiers).
  - split; reflexivity.
  - reflexivity.
Defined.

(** [parseJS_syntax_error] on a parser that writes half a record and exits
    with code 33. *)
Lemma parseJS_syntax_error_witness :
  ∃ result,
    parseSample "[{" (Some (ExitError 33 "SyntaxError")) sample.literals
    = Returned (result, "", None, [])
    ∧ ValidInput result = false
    ∧ Identifiers result = [] ∧ Literals result = [] ∧ Comments result = [].
Proof.
  apply (@parseJS_syntax_error sample.tokens sample.bigs
           (sample.scripted "[{" (Some (ExitError 33 "SyntaxError")))
           (sample.decoder sample.literals) sample.config "a.js" "" "[{" "SyntaxError").
  reflexivity.
Defined.

(** [parseJS_numeric_literals] on the four sample literals. *)
Lemma parseJS_numeric_literals_witness :
  ∃ result,
    parseSample "[]" None sample.literals = Returned (result, "[]", None, [])
    ∧ litValue <$> Literals result
      = [ABigInt 123456789012345678901234567890; AString "12x"; AFloat64 1.5%float;
         AString "42"]
    ∧ Forall2
        (λ element literal,
           (∀ text n, elSymbolSubtype element = "Numeric" → elData element = AString text →
                      big.SetString text 0 = Some n → litValue literal = ABigInt n)
           ∧ (∀ text, elSymbolSubtype element = "Numeric" → elData element = AString text →
                      big.SetString text 0 = None → litValue literal = AString text)
           ∧ (∀ f, elData element = AFloat64 f → litValue literal = AFloat64 f))
        (List.filter isLiteral sample.literals) (Literals result).
Proof.
  eexists. split; [reflexivity|]. split; [reflexivity|].
  eapply (@parseJS_numeric_literals sample.tokens sample.bigs (sample.scripted "[]" None)
           (sample.decoder sample.literals) sample.config "a.js" "" "[]" sample.literals
           _ "[]" None []).
  - split; reflexivity.
  - reflexivity.
Defined.

(** [parseJS_identifier_classes] on the sample identifiers: the record
    classified as [Other] is dropped although its data is a number, and the
    one of unknown subtype is dropped. *)
Lemma parseJS_identifier_classes_witness :
  convertElement (sample.record_ Identifier "Other" (AFloat64 0%float) []) (zeroOutput, [])
  = Returned (zeroOutput, [])
  ∧ ∃ result warnings,
      parseSample "[]" None sample.identifiers = Returned (result, "[]", None, warnings)
      ∧ idName <$> Identifiers result = ["f"; "v"]
      ∧ Forall (λ i, idType i ≠ token.Other ∧ idType i ≠ token.Unknown) (Identifiers result).
Proof.
  split.
  - apply (proj1 (@parseJS_identifier_classes sample.tokens sample.bigs
                    (sample.scripted "[]" None) (sample.decoder sample.identifiers)));
      reflexivity.
  - eexists _, _. split; [reflexivity|]. split; [reflexivity|].
    eapply (proj2 (@parseJS_identifier_classes sample.tokens sample.bigs
                    (sample.scripted "[]" None) (sample.decoder sample.identifiers))
             sample.config "a.js" "" "[]" sample.identifiers _ "[]" None _).
    + split; reflexivity.
    + reflexivity.
Defined.

(** [parseJS_InArray] on the four sample literals: only the first has
    [array] bound to the boolean true. *)
Lemma parseJS_InArray_witness :
  ∃ result,
    parseSample "[]" None sample.literals = Returned (result, "[]", None, [])
    ∧ litInArray <$> Literals result = [true; false; false; false]
    ∧ Forall2
        (λ element literal,
           litInArray literal = true ↔ elExtra element !! "array" = Some (ABool true))
        (List.filter isLiteral sample.literals) (Literals result).
Proof.
  eexists. split; [reflexivity|]. split; [reflexivity|].
  eapply (@parseJS_InArray sample.tokens sample.bigs (sample.scripted "[]" None)
           (sample.decoder sample.literals) sample.config "a.js" "" "[]" sample.literals
           _ "[]" None []).
  - split; reflexivity.
  - reflexivity.
Defined.

(** [parseJS_literal_without_raw] on a batch that ends with a literal
    without [raw]. *)
Lemma parseJS_literal_without_raw_witness :
  panics (convertElement sample.rawless (zeroOutput, []))
  ∧ panics (parseSample "[]" None (sample.literals ++ [sample.rawless])%list).
Proof.
  assert (Hlit : isLiteral sample.rawless = true) by reflexivity.
  assert (Hraw : ∀ raw, elExtra sample.rawless !! "raw" ≠ Some (AString raw)).
  { intros raw. vm_compute. discriminate. }
  split.
  - apply (proj1 (@parseJS_literal_without_raw sample.tokens sample.bigs
                    (sample.scripted "[]" None)
                    (sample.decoder (sample.literals ++ [sample.rawless])%list)
                    sample.rawless Hlit Hraw)).
  - apply (proj2 (@parseJS_literal_without_raw sample.tokens sample.bigs
                    (sample.scripted "[]" None)
                    (sample.decoder (sample.literals ++ [sample.rawless])%list)
                    sample.rawless Hlit Hraw)
             sample.config "a.js" "" "[]" (sample.literals ++ [sample.rawless])%list).
    + split; reflexivity.
    + apply elem_of_app. right. apply list_elem_of_singleton. reflexivity.
Defined.

(** [RunDynamicAnalysis_infrastructure_error] on the phases install,
    execute, import: the sandbox cannot run execute. *)
Lemma RunDynamicAnalysis_infrastructure_error_witness :
  let installed := @dynamicanalysis.Build_Result sample.summaries ("completed", 0%nat) ["install"] in
  RunDynamicAnalysis 0%nat (sample.package ["install"; "execute"; "import"])
  = ((recorded [("install", installed)] noResults, "execute", "",
      Some (OtherError "sandbox unavailable")),
     {| sandboxAfter := 2%nat;
        phasesRun := ["install"; "execute"];
        logged := [LogDynamicAnalysisError
                     (sample.package ["install"; "execute"; "import"]) "execute"
                     (OtherError "sandbox unavailable")] |})
  ∧ StraceSummary (recorded [("install", installed)] noResults) !! "execute" = None
  ∧ FileWrites (recorded [("install", installed)] noResults) !! "execute" = None.
Proof.
  intros installed.
  destruct (@RunDynamicAnalysis_infrastructure_error sample.statuses sample.ecosystem
              sample.sandboxes sample.summaries sample.runner
              0%nat (sample.package ["install"; "execute"; "import"])
              ["install"] "execute" ["import"] 1%nat [("install", installed)] 2%nat
              (OtherError "sandbox unavailable") eq_refl eq_refl eq_refl)
    as (Hrun & _ & _ & _ & Habsent).
  split; [exact Hrun|]. apply Habsent.
  intros Hin%list_elem_of_singleton. discriminate.
Defined.

(** [RunDynamicAnalysis_not_completed] on the phases install, import,
    execute: import times out, and execute is never run. *)
Lemma RunDynamicAnalysis_not_completed_witness :
  let installed := @dynamicanalysis.Build_Result sample.summaries ("completed", 0%nat) ["install"] in
  let imported := @dynamicanalysis.Build_Result sample.summaries ("timeout", 1%nat) [] in
  RunDynamicAnalysis 0%nat (sample.package ["install"; "import"; "execute"])
  = ((record "import" imported (recorded [("install", installed)] noResults),
      "import", "timeout", None),
     {| sandboxAfter := 2%nat;
        phasesRun := ["install"; "import"];
        logged := [LogDynamicAnalysisResult
                     (sample.package ["install"; "import"; "execute"]) "import" "timeout"] |}).
Proof.
  intros installed imported.
  apply (@RunDynamicAnalysis_not_completed sample.statuses sample.ecosystem
           sample.sandboxes sample.summaries sample.runner
           0%nat (sample.package ["install"; "import"; "execute"])
           ["install"] "import" ["execute"] 1%nat [("install", installed)] 2%nat imported
           eq_refl eq_refl eq_refl).
  discriminate.
Defined.

(** [RunDynamicAnalysis_no_phases] on a package without phases. *)
Lemma RunDynamicAnalysis_no_phases_witness :
  RunDynamicAnalysis 7%nat (sample.package [])
  = (({| StraceSummary := ∅; FileWrites := ∅ |}, "", "", None),
     {| sandboxAfter := 7%nat;
        phasesRun := [];
        logged := [LogDynamicAnalysisResult (sample.package []) "" ""] |}).
Proof.
  apply (@RunDynamicAnalysis_no_phases sample.statuses sample.ecosystem
           sample.sandboxes sample.summaries sample.runner 7%nat (sample.package [])).
  reflexivity.
Defined.

(** ** The further properties on the sample collaborators *)

#[local] Abbreviation exampleSample stdout err storage :=
  (@RunExampleParsing sample.tokens sample.bigs (sample.scripted stdout err)
     (sample.decoder storage) sample.config "a.js" "").

(** [runParser_text] on a parser that cannot be started, and on one that
    echoes the source piped to it. *)
Lemma runParser_text_witness :
  (@runParser (sample.scripted "junk" (Some (OtherError "node: not found")))
     "parser.js" "a.js" "").1 = ""
  ∧ @exec.Output sample.echo (@nodeCommand "parser.js" "") (Some "let x = 1")
    = ("let x = 1", None).
Proof.
  split.
  - apply (@runParser_text (sample.scripted "junk" (Some (OtherError "node: not found")))
             "parser.js" "a.js" "" _ (Some (OtherError "node: not found")) eq_refl).
    discriminate.
  - apply (@runParser_text sample.echo "parser.js" "" "let x = 1" "let x = 1" None eq_refl).
    reflexivity.
Defined.

(** [runParser_file_or_source] on a file name and on none. *)
Lemma runParser_file_or_source_witness :
  (exec.Args (nodeCommand "parser.js" "a.js") = ["parser.js"; "a.js"]
   ∧ @runParser sample.echo "parser.js" "a.js" "let x = 1"
     = @runParser sample.echo "parser.js" "a.js" "")
  ∧ exec.Args (nodeCommand "parser.js" "") = ["parser.js"].
Proof.
  split.
  - destruct (proj1 (@runParser_file_or_source sample.echo "parser.js" "a.js"))
      as [Hargs Hsame]; [discriminate|].
    split; [exact Hargs | apply Hsame].
  - apply (proj2 (@runParser_file_or_source sample.echo "parser.js" "")). reflexivity.
Defined.

(** [parseJS_other_exit] on a parser that exits with code 1. *)
Lemma parseJS_other_exit_witness :
  parseSample "[{" (Some (ExitError 1 "TypeError")) sample.literals
  = Returned (zeroOutput, "TypeError", Some (ExitError 1 "TypeError"), []).
Proof.
  apply (@parseJS_other_exit sample.tokens sample.bigs
           (sample.scripted "[{" (Some (ExitError 1 "TypeError")))
           (sample.decoder sample.literals) sample.config "a.js" "" 1 "[{" "TypeError").
  - reflexivity.
  - discriminate.
Defined.

(** [parseJS_pipe_failure] on a pipe that cannot be created, on one that
    cannot be written and on one that cannot be closed. *)
Lemma parseJS_pipe_failure_witness :
  @parseJS sample.tokens sample.bigs
    (sample.pipes (Some (OtherError "too many open files")) None None)
    (sample.decoder sample.literals) sample.config "" "let x = 1"
  = Returned (zeroOutput, "",
              Some (Errorf "runParser failed to create pipe: %v"
                      (OtherError "too many open files")), [])
  ∧ @parseJS sample.tokens sample.bigs
      (sample.pipes None (Some (OtherError "broken pipe")) None)
      (sample.decoder sample.literals) sample.config "" "let x = 1"
    = Returned (zeroOutput, "",
                Some (Errorf "runParser failed to write source string to pipe: %w"
                        (OtherError "broken pipe")), [])
  ∧ @parseJS sample.tokens sample.bigs
      (sample.pipes None None (Some (OtherError "file already closed")))
      (sample.decoder sample.literals) sample.config "" "let x = 1"
    = Returned (zeroOutput, "",
                Some (Errorf "runParser failed to close pipe: %w"
                        (OtherError "file already closed")), []).
Proof.
  split_and!.
  - apply (proj1 (@parseJS_pipe_failure sample.tokens sample.bigs
                    (sample.pipes (Some (OtherError "too many open files")) None None)
                    (sample.decoder sample.literals) sample.config "let x = 1"
                    (OtherError "too many open files"))).
    reflexivity.
  - apply (proj1 (proj2 (@parseJS_pipe_failure sample.tokens sample.bigs
                    (sample.pipes None (Some (OtherError "broken pipe")) None)
                    (sample.decoder sample.literals) sample.config "let x = 1"
                    (OtherError "broken pipe")))); reflexivity.
  - apply (proj2 (proj2 (@parseJS_pipe_failure sample.tokens sample.bigs
                    (sample.pipes None None (Some (OtherError "file already closed")))
                    (sample.decoder sample.literals) sample.config "let x = 1"
                    (OtherError "file already closed")))); reflexivity.
Defined.

(** [parseJS_decode_error] on a decoder that rejects the output. *)
Lemma parseJS_decode_error_witness :
  @parseJS sample.tokens sample.bigs (sample.scripted "[{" None)
    (sample.rejecting (OtherError "unexpected EOF")) sample.config "a.js" ""
  = Returned (zeroOutput, "[{", Some (OtherError "unexpected EOF"), []).
Proof.
  apply (@parseJS_decode_error sample.tokens sample.bigs (sample.scripted "[{" None)
           (sample.rejecting (OtherError "unexpected EOF")) sample.config "a.js" "" "[{"
           (OtherError "unexpected EOF")); reflexivity.
Defined.

(** [parseJS_error_or_result] on an exit with code 1 and on a successful
    run. *)
Lemma parseJS_error_or_result_witness :
  (∃ result out err warnings,
     parseSample "[{" (Some (ExitError 1 "TypeError")) sample.literals
     = Returned (result, out, err, warnings)
     ∧ err ≠ None ∧ result = zeroOutput ∧ warnings = []
     ∧ Identifiers result = [] ∧ Literals result = [] ∧ Comments result = [])
  ∧ (∃ result out err warnings,
       parseSample "[]" None sample.identifiers = Returned (result, out, err, warnings)
       ∧ ValidInput result = true ∧ err = None).
Proof.
  split.
  - eexists _, _, _, _. split; [reflexivity|].
    destruct (@parseJS_error_or_result sample.tokens sample.bigs
                (sample.scripted "[{" (Some (ExitError 1 "TypeError")))
                (sample.decoder sample.literals) sample.config "a.js" ""
                _ _ _ _ eq_refl) as (Herr & Hinvalid & _).
    split; [discriminate|].
    destruct Herr as [Hzero Hquiet]; [discriminate|].
    destruct Hinvalid as (Hi & Hl & Hc); [reflexivity|].
    by split_and!.
  - eexists _, _, _, _. split; [reflexivity|]. split; [reflexivity|].
    apply (proj2 (proj2 (@parseJS_error_or_result sample.tokens sample.bigs
                    (sample.scripted "[]" None)
                    (sample.decoder sample.identifiers) sample.config "a.js" ""
                    _ _ _ _ eq_refl))).
    reflexivity.
Defined.

(** [parseJS_comments] on the sample identifiers, which hold one comment. *)
Lemma parseJS_comments_witness :
  ∃ result warnings,
    parseSample "[]" None sample.identifiers = Returned (result, "[]", None, warnings)
    ∧ cmData <$> Comments result = [" note"]
    ∧ Forall2
        (λ element comment,
           cmType comment = elSymbolSubtype element
           ∧ elData element = AString (cmData comment)
           ∧ cmPos comment = elPos element)
        (List.filter isComment sample.identifiers) (Comments result).
Proof.
  eexists _, _. split; [reflexivity|]. split; [reflexivity|].
  eapply (@parseJS_comments sample.tokens sample.bigs (sample.scripted "[]" None)
            (sample.decoder sample.identifiers) sample.config "a.js" "" "[]"
            sample.identifiers _ "[]" None _).
  - split; reflexivity.
  - reflexivity.
Defined.

(** [parseJS_literal_fields] on the four sample literals: only the first
    is turned into a big integer. *)
Lemma parseJS_literal_fields_witness :
  ∃ result,
    parseSample "[]" None sample.literals = Returned (result, "[]", None, [])
    ∧ litGoType <$> Literals result = ["big.Int"; "string"; "float64"; "string"]
    ∧ litRawValue <$> Literals result
      = ["123456789012345678901234567890n"; "12x"; "1.5"; "'42'"]
    ∧ Forall2
        (λ element literal,
           litType literal = elSymbolSubtype element
           ∧ litPos literal = elPos element
           ∧ elExtra element !! "raw" = Some (AString (litRawValue literal))
           ∧ (∀ text n,
                elSymbolSubtype element = "Numeric" → elData element = AString text →
                big.SetString text 0 = Some n →
                litValue literal = ABigInt n ∧ litGoType literal = "big.Int")
           ∧ (elSymbolSubtype element ≠ "Numeric"
              ∨ (∀ text, elData element ≠ AString text)
              ∨ (∃ text, elData element = AString text ∧ big.SetString text 0 = None) →
              litValue literal = elData element
              ∧ litGoType literal = typeName (elData element)))
        (List.filter isLiteral sample.literals) (Literals result).
Proof.
  eexists. split; [reflexivity|]. split; [reflexivity|]. split; [reflexivity|].
  eapply (@parseJS_literal_fields sample.tokens sample.bigs (sample.scripted "[]" None)
            (sample.decoder sample.literals) sample.config "a.js" "" "[]" sample.literals
            _ "[]" None []).
  - split; reflexivity.
  - reflexivity.
Defined.

(** [parseJS_warnings] on the sample identifiers, which hold one record of
    unrecognised kind, and on the same records followed by a literal without
    [raw]: the loop reaches that literal with the same warning logged. *)
Lemma parseJS_warnings_witness :
  (∃ result warnings,
     parseSample "[]" None sample.identifiers = Returned (result, "[]", None, warnings)
     ∧ warnings = ["parseJS: unrecognised symbol type Shebang"])
  ∧ (∃ result,
       convertElements sample.identifiers
         ({| ValidInput := true; Identifiers := []; Literals := []; Comments := [] |}, [])
       = Returned (result, ["parseJS: unrecognised symbol type Shebang"])
       ∧ panics (convertElement sample.rawless
                   (result, ["parseJS: unrecognised symbol type Shebang"]))
       ∧ panics (parseSample "[]" None (sample.identifiers ++ [sample.rawless])%list)).
Proof.
  split.
  - eexists _, _. split; [reflexivity|].
    etransitivity.
    + eapply (proj1 (@parseJS_warnings sample.tokens sample.bigs (sample.scripted "[]" None)
                       (sample.decoder sample.identifiers) sample.config "a.js" "" "[]"
                       sample.identifiers (conj eq_refl eq_refl))).
      reflexivity.
    + reflexivity.
  - apply (proj2 (@parseJS_warnings sample.tokens sample.bigs (sample.scripted "[]" None)
                    (sample.decoder (sample.identifiers ++ [sample.rawless])%list)
                    sample.config "a.js" "" "[]"
                    (sample.identifiers ++ [sample.rawless])%list (conj eq_refl eq_refl))
             sample.identifiers sample.rawless []); reflexivity.
Defined.

(** [parseJS_counts] on the sample identifiers: six records, two
    identifiers kept out of four, one comment. *)
Lemma parseJS_counts_witness :
  ∃ result warnings,
    parseSample "[]" None sample.identifiers = Returned (result, "[]", None, warnings)
    ∧ length (Literals result) = length (List.filter isLiteral sample.identifiers)
    ∧ length (Comments result) = length (List.filter isComment sample.identifiers)
    ∧ (length (Identifiers result) ≤ length (List.filter isIdentifier sample.identifiers))%nat
    ∧ (length (Identifiers result) + length (Literals result) + length (Comments result)
       ≤ length sample.identifiers)%nat.
Proof.
  eexists _, _. split; [reflexivity|].
  eapply (@parseJS_counts sample.tokens sample.bigs (sample.scripted "[]" None)
            (sample.decoder sample.identifiers) sample.config "a.js" "" "[]"
            sample.identifiers _ "[]" None _).
  - split; reflexivity.
  - reflexivity.
Defined.

(** [RunExampleParsing_syntax_error] on a parser that exits with code 33. *)
Lemma RunExampleParsing_syntax_error_witness :
  exampleSample "[{" (Some (ExitError 33 "SyntaxError")) sample.literals
  = Returned
      ([println [newline +:+ "Raw JSON:" +:+ newline; ""];
        Println "Completed without errors";
        println []; println ["== Parsed Identifiers =="];
        println []; println ["== Parsed Literals =="];
        println []; println ["== Parsed Comments =="]], []).
Proof.
  apply (@RunExampleParsing_syntax_error sample.tokens sample.bigs
           (sample.scripted "[{" (Some (ExitError 33 "SyntaxError")))
           (sample.decoder sample.literals) sample.config "a.js" "" "[{" "SyntaxError").
  reflexivity.
Defined.

(** [RunExampleParsing_error] on a parser that exits with code 1. *)
Lemma RunExampleParsing_error_witness :
  ∃ out,
    exampleSample "[{" (Some (ExitError 1 "TypeError")) sample.literals = Returned (out, [])
    ∧ out !! 0%nat = Some (println [newline +:+ "Raw JSON:" +:+ newline; "TypeError"])
    ∧ out !! 1%nat = Some (PrintfError (ExitError 1 "TypeError"))
    ∧ (∀ stderr, Println stderr ∈ out ↔ ∃ code, ExitError 1 "TypeError" = ExitError code stderr)
    ∧ printedItems out = ([], [], []).
Proof.
  apply (@RunExampleParsing_error sample.tokens sample.bigs
           (sample.scripted "[{" (Some (ExitError 1 "TypeError")))
           (sample.decoder sample.literals) sample.config "a.js" ""
           zeroOutput "TypeError" (ExitError 1 "TypeError") []).
  reflexivity.
Defined.

(** [RunExampleParsing_prints] on the sample identifiers. *)
Lemma RunExampleParsing_prints_witness :
  ∃ result warnings out,
    parseSample "[]" None sample.identifiers = Returned (result, "[]", None, warnings)
    ∧ exampleSample "[]" None sample.identifiers = Returned (out, warnings)
    ∧ out !! 0%nat = Some (println [newline +:+ "Raw JSON:" +:+ newline; "[]"])
    ∧ out !! 1%nat = Some (Println "Completed without errors")
    ∧ printedItems out = (Identifiers result, Literals result, Comments result).
Proof.
  eexists _, _.
  assert (Hex := @RunExampleParsing_prints sample.tokens sample.bigs
                   (sample.scripted "[]" None) (sample.decoder sample.identifiers)
                   sample.config "a.js" "" _ "[]" _ eq_refl).
  destruct Hex as (out & Hout). exists out. split; [reflexivity | exact Hout].
Defined.

#[local] Abbreviation analyseSample phases :=
  (@RunDynamicAnalysis sample.statuses sample.ecosystem sample.sandboxes sample.summaries
     sample.runner 0%nat (sample.package phases)).

Lemma NoDup_three_phases : NoDup ["install"; "execute"; "import"].
Proof.
  repeat constructor; rewrite ?elem_of_cons, elem_of_nil; intros H;
    repeat (destruct H as [H|H]; [discriminate|]); done.
Qed.

(** [RunDynamicAnalysis_all_complete] on the phases install, build. *)
Lemma RunDynamicAnalysis_all_complete_witness :
  let installed := @dynamicanalysis.Build_Result sample.summaries ("completed", 0%nat) ["install"] in
  let built := @dynamicanalysis.Build_Result sample.summaries ("completed", 1%nat) ["build"] in
  analyseSample ["install"; "build"]
  = ((recorded [("install", installed); ("build", built)] noResults, "build", "completed", None),
     {| sandboxAfter := 2%nat;
        phasesRun := ["install"; "build"];
        logged := [LogDynamicAnalysisResult (sample.package ["install"; "build"])
                     "build" "completed"] |}).
Proof.
  intros installed built.
  apply (@RunDynamicAnalysis_all_complete sample.statuses sample.ecosystem sample.sandboxes
           sample.summaries sample.runner 0%nat (sample.package ["install"; "build"])
           "install" ["build"] 2%nat [("install", installed); ("build", built)]
           eq_refl eq_refl).
Defined.

(** [RunDynamicAnalysis_phases_run] on the phases install, import, execute:
    import times out. *)
Lemma RunDynamicAnalysis_phases_run_witness :
  ∃ results phase status err after,
    analyseSample ["install"; "import"; "execute"] = ((results, phase, status, err), after)
    ∧ phasesRun after = ["install"; "import"]
    ∧ phasesRun after `prefix_of` ["install"; "import"; "execute"]
    ∧ phasesRun after ≠ []
    ∧ phase = default "" (last (phasesRun after))
    ∧ logged after
      = [LogDynamicAnalysisResult (sample.package ["install"; "import"; "execute"])
           phase status].
Proof.
  eexists _, _, _, _, _. split; [reflexivity|]. split; [reflexivity|].
  destruct (@RunDynamicAnalysis_phases_run sample.statuses sample.ecosystem
              sample.sandboxes sample.summaries sample.runner 0%nat
              (sample.package ["install"; "import"; "execute"]) _ _ _ _ _ eq_refl)
    as (Hprefix & Hsome & Hlast & Hlog).
  split_and!; [exact Hprefix | apply Hsome; discriminate | exact Hlast | exact Hlog].
Defined.

(** [RunDynamicAnalysis_error_unrecorded] on the phases install, execute,
    import: the sandbox cannot run execute. *)
Lemma RunDynamicAnalysis_error_unrecorded_witness :
  ∃ results status e after,
    analyseSample ["install"; "execute"; "import"]
    = ((results, "execute", status, Some e), after)
    ∧ StraceSummary results !! "execute" = None
    ∧ FileWrites results !! "execute" = None
    ∧ status = "".
Proof.
  eexists _, _, _, _. split; [reflexivity|].
  eapply (@RunDynamicAnalysis_error_unrecorded sample.statuses sample.ecosystem
            sample.sandboxes sample.summaries sample.runner 0%nat
            (sample.package ["install"; "execute"; "import"])).
  - exact NoDup_three_phases.
  - reflexivity.
Defined.

(** [RunDynamicAnalysis_last_recorded] on the phases install, import,
    execute: import is recorded with its status. *)
Lemma RunDynamicAnalysis_last_recorded_witness :
  ∃ results status after,
    analyseSample ["install"; "import"; "execute"] = ((results, "import", status, None), after)
    ∧ status = "timeout"
    ∧ (∃ summary, StraceSummary results !! "import" = Some summary
                  ∧ status = dynamicanalysis.Status summary)
    ∧ is_Some (FileWrites results !! "import").
Proof.
  eexists _, _, _. split; [reflexivity|]. split; [reflexivity|].
  eapply (@RunDynamicAnalysis_last_recorded sample.statuses sample.ecosystem
            sample.sandboxes sample.summaries sample.runner 0%nat
            (sample.package ["install"; "import"; "execute"])).
  - discriminate.
  - reflexivity.
Defined.

(** [RunDynamicAnalysis_earlier_completed] on the phases install, import,
    execute: install, recorded before the returned phase, has completed. *)
Lemma RunDynamicAnalysis_earlier_completed_witness :
  ∃ results after summary,
    analyseSample ["install"; "import"; "execute"]
    = ((results, "import", "timeout", None), after)
    ∧ StraceSummary results !! "install" = Some summary
    ∧ dynamicanalysis.Status summary = "completed".
Proof.
  eexists _, _, _. split; [reflexivity|]. split; [reflexivity|].
  eapply (@RunDynamicAnalysis_earlier_completed sample.statuses sample.ecosystem
            sample.sandboxes sample.summaries sample.runner 0%nat
            (sample.package ["install"; "import"; "execute"]) _ "import" "timeout" None _
            "install").
  - reflexivity.
  - reflexivity.
  - discriminate.
Defined.

(** [RunDynamicAnalysis_completed_all_run] on the phases install, build. *)
Lemma RunDynamicAnalysis_completed_all_run_witness :
  ∃ results phase err after,
    analyseSample ["install"; "build"] = ((results, phase, "completed", err), after)
    ∧ phasesRun after = ["install"; "build"]
    ∧ dom (StraceSummary results) = list_to_set ["install"; "build"].
Proof.
  eexists _, _, _, _. split; [reflexivity|].
  eapply (@RunDynamicAnalysis_completed_all_run sample.statuses sample.ecosystem
            sample.sandboxes sample.summaries sample.runner 0%nat
            (sample.package ["install"; "build"])).
  - reflexivity.
  - reflexivity.
Defined.

(** [RunDynamicAnalysis_keys] on the phases install, execute, import: the
    maps have install only. *)
Lemma RunDynamicAnalysis_keys_witness :
  ∃ results status e after before,
    analyseSample ["install"; "execute"; "import"]
    = ((results, "execute", status, Some e), after)
    ∧ phasesRun after = (before ++ ["execute"])%list
    ∧ dom (StraceSummary results) = list_to_set before.
Proof.
  eexists _, _, _, _.
  destruct (@RunDynamicAnalysis_keys sample.statuses sample.ecosystem
              sample.sandboxes sample.summaries sample.runner 0%nat
              (sample.package ["install"; "execute"; "import"]) _ "execute" _ (Some _) _ eq_refl)
    as (before & Hrun & Hdom).
  exists before. split; [reflexivity|]. split; [exact Hrun | exact Hdom].
Defined.
